(** * aoc_runner_tiles: leaderboard parsing and solve-state composition

    A shallow embedding of [src/leaderboard.py] ([parse_leaderboard]) and of
    the composition and aggregation methods of [src/tile_maker.py]
    ([TileMaker._get_stars], [TileMaker.compose_solve_data],
    [TileMaker.fill_empty_days_in_dict], [TileMaker.handle_year]).

    Conventions of the embedding:
    - Python [str] is [string]; its characters are the code points below
      256, which covers the leaderboard page.  Whitespace is what
      [str.isspace] and the pattern [\s] accept in that range.
    - Python [int] is [Z] for years and days and [nat] for counts
      (results of [len] and of [bool + bool]).
    - A raised exception is the [Raise] constructor of [result], tagged
      with the exception class; nothing in the modelled code catches an
      exception except the two [except KeyError] clauses of the parser.
    - [dict] is [gmap]; [defaultdict(list)] is a [gmap] read with default
      [[]].
    - The collaborators that are imported from outside the two source
      files are taken by their interface: [get_leaderboard] is a section
      variable, [DataTracker] and [Language] are records of what the
      code observes of them. *)

From Stdlib Require Import ZArith Ascii String List Permutation Lia.
From stdpp Require Import base option list gmap strings sorting.

Local Open Scope string_scope.
Local Open Scope Z_scope.
Local Open Scope list_scope.

(** ** Exceptions *)

Inductive exn : Set :=
  | AssertionError
  | IndexError
  | KeyError
  | TypeError
  | ValueError.

Inductive result (A : Type) : Type :=
  | Ok (a : A)
  | Raise (e : exn).
Arguments Ok {A} a.
Arguments Raise {A} e.

#[global] Instance result_ret : MRet result := fun _ a => Ok a.
#[global] Instance result_bind : MBind result := fun _ _ k m =>
  match m with
  | Ok a => k a
  | Raise e => Raise e
  end.

Definition succeeds {A} (m : result A) : bool :=
  match m with Ok _ => true | Raise _ => false end.

(** [for x in xs: s = body(s, x)] where [body] may raise. *)
Fixpoint for_each {S X} (body : S -> X -> result S) (s : S) (xs : list X)
  : result S :=
  match xs with
  | [] => Ok s
  | x :: xs' => s' ← body s x; for_each body s' xs'
  end.

(** ** Text primitives of Python used by the parser *)

Module Text.

Definition dq : string := String (ascii_of_nat 34) "".
Definition nl : string := String (ascii_of_nat 10) "".

(** [str.isspace] on a code point below 256: TAB..CR, FS..US, SPACE,
    NEL and NBSP. *)
Definition is_space (c : ascii) : bool :=
  let n := nat_of_ascii c in
  ((9 <=? n) && (n <=? 13) || (28 <=? n) && (n <=? 32)
   || (n =? 133) || (n =? 160))%nat.

(** [s.startswith(p)], returning what follows [p]. *)
Fixpoint strip_prefix (p s : string) : option string :=
  match p, s with
  | EmptyString, _ => Some s
  | String a p', String b s' =>
      if Ascii.eqb a b then strip_prefix p' s' else None
  | String _ _, EmptyString => None
  end.

(** [p in s] *)
Fixpoint contains (p s : string) : bool :=
  match strip_prefix p s with
  | Some _ => true
  | None =>
      match s with
      | EmptyString => false
      | String _ s' => contains p s'
      end
  end.

(** [s.partition(p)] when [p] occurs: the text before the first
    occurrence and the text after it. *)
Fixpoint split_first (p s : string) : option (string * string) :=
  match strip_prefix p s with
  | Some rest => Some (EmptyString, rest)
  | None =>
      match s with
      | EmptyString => None
      | String c s' =>
          match split_first p s' with
          | Some (before, rest) => Some (String c before, rest)
          | None => None
          end
      end
  end.

Fixpoint lstrip (s : string) : string :=
  match s with
  | EmptyString => EmptyString
  | String c s' => if is_space c then lstrip s' else s
  end.

Fixpoint rstrip (s : string) : string :=
  match s with
  | EmptyString => EmptyString
  | String c s' =>
      match rstrip s' with
      | EmptyString => if is_space c then EmptyString else String c EmptyString
      | r => String c r
      end
  end.

(** [s.strip()] *)
Definition strip (s : string) : string := rstrip (lstrip s).

(** [s.split(sep)] for a one-character separator. *)
Fixpoint split_char (sep : ascii) (s : string) : list string :=
  match s with
  | EmptyString => [EmptyString]
  | String c s' =>
      if Ascii.eqb c sep then EmptyString :: split_char sep s'
      else
        match split_char sep s' with
        | h :: t => String c h :: t
        | [] => [String c EmptyString]
        end
  end.

(** [re.split(r"\s+", s)]: [in_run] tells that the previous character
    belonged to a whitespace run, which is then only extended. *)
Fixpoint re_split_spaces (in_run : bool) (s : string) : list string :=
  match s with
  | EmptyString => [EmptyString]
  | String c s' =>
      if is_space c then
        if in_run then re_split_spaces true s'
        else EmptyString :: re_split_spaces true s'
      else
        match re_split_spaces false s' with
        | h :: t => String c h :: t
        | [] => [String c EmptyString]
        end
  end.

Definition digit_value (c : ascii) : option Z :=
  let n := nat_of_ascii c in
  if ((48 <=? n) && (n <=? 57))%nat then Some (Z.of_nat n - 48) else None.

(** The digits of a decimal literal accepted by [int]: one or more
    digits, single underscores allowed between two digits.  [acc] is
    the value read so far and [after_digit] tells that the previous
    character was a digit. *)
Fixpoint int_digits (acc : Z) (after_digit : bool) (s : string) : option Z :=
  match s with
  | EmptyString => if after_digit then Some acc else None
  | String c s' =>
      match digit_value c with
      | Some d => int_digits (10 * acc + d) true s'
      | None =>
          if Ascii.eqb c "_"%char && after_digit then int_digits acc false s'
          else None
      end
  end.

(** [int(s)] for a [str]: surrounding whitespace is ignored, one sign is
    accepted; [None] stands for [ValueError].  (The limit that recent
    interpreters put on the number of digits is not modelled.) *)
Definition int (s : string) : option Z :=
  match strip s with
  | String "+" r => int_digits 0 false r
  | String "-" r => Z.opp <$> int_digits 0 false r
  | r => int_digits 0 false r
  end.

End Text.

(** [l.insert(i, x)]: an index past the end appends. *)
Definition py_insert {A} (i : nat) (x : A) (l : list A) : list A :=
  take i l ++ x :: drop i l.

(** [l[i] = x]: an index past the end raises. *)
Definition set_item {A} (l : list A) (i : nat) (x : A) : result (list A) :=
  if (i <? length l)%nat then Ok (<[i := x]> l) else Raise IndexError.

(** ** Collaborators defined outside the two source files *)

(** [Language]: the attributes the code reads, [lang] (its name) and
    [ran], the collection of (year, day) pairs it has run. *)
Record Language : Type := {
  lang : string;
  ran : gset (Z * Z);
}.

(** [DataTracker] is imported from [aoc_runner.data_tracker]; the record
    lists what the two source files observe of one:
    - [has_year y] is [y in tracker];
    - [day_solution l y d] is [day_to_solution[d]] of lines 223-225 and 234
      of tile_maker.py for language [l] and year [y]: [None] when that
      entry is [None], otherwise its [len];
    - [runtime_text y d p] is [f"{tracker[y, d, p]:.3f}"], [None] when the
      lookup raises [KeyError]. *)
Record DataTracker : Type := {
  has_year : Z -> bool;
  day_solution : Language -> Z -> Z -> option nat;
  runtime_text : Z -> Z -> Z -> option string;
}.

(** ** leaderboard.py *)

Record DayScores : Type := {
  time1 : option string;
  rank1 : option string;
  score1 : option string;
  time2 : option string;
  rank2 : option string;
  score2 : option string;
}.

(** [DayScores] called on the unpacked list: positional arguments, the
    rest defaulting to [None]. *)
Definition DayScores_of (scores : list (option string)) : DayScores :=
  {| time1 := mjoin (scores !! 0%nat);
     rank1 := mjoin (scores !! 1%nat);
     score1 := mjoin (scores !! 2%nat);
     time2 := mjoin (scores !! 3%nat);
     rank2 := mjoin (scores !! 4%nat);
     score2 := mjoin (scores !! 5%nat) |}.

Definition no_stars : string := "You haven't collected any stars... yet.".

Definition span_open : string :=
  "<span class=" +:+ Text.dq +:+ "leaderboard-daydesc-both" +:+ Text.dq +:+ ">".

Definition end_marker : string := "</pre>".

(** The pattern [ *]: as many spaces as there are.  What follows it in
    the start marker begins with a letter, so giving spaces back never
    yields another match. *)
Fixpoint skip_blanks (s : string) : string :=
  match s with
  | String " " s' => skip_blanks s'
  | _ => s
  end.

(** The pattern [start] matched at the head of [s]; what follows it. *)
Definition match_start (year : Z) (s : string) : option string :=
  if year <? 2025 then
    s1 ← Text.strip_prefix span_open s;
    s2 ← Text.strip_prefix "Time" (skip_blanks s1);
    s3 ← Text.strip_prefix "Rank" (skip_blanks s2);
    Text.strip_prefix ("Score</span>" +:+ Text.nl) (skip_blanks s3)
  else
    Text.strip_prefix (span_open +:+ "-Part 2-</span>" +:+ Text.nl) s.

(** [re.findall(rf"{start}(.*?){end}", html, re.DOTALL | re.MULTILINE)[0]]
    when there is a match: the leftmost position where [start] matches
    and [end] follows somewhere, and the text up to the first [end]. *)
Fixpoint first_match (year : Z) (html : string) : option string :=
  match rest ← match_start year html;
        fst <$> Text.split_first end_marker rest with
  | Some body => Some body
  | None =>
      match html with
      | EmptyString => None
      | String _ html' => first_match year html'
      end
  end.

Definition dash_to_None (s : string) : option string :=
  if String.eqb s "-" then None else Some s.

(** Lines 41-46: the two pairs of [insert] for the newer format. *)
Definition normalize (year : Z) (scores : list (option string))
  : list (option string) :=
  if 2025 <=? year then
    let scores := py_insert 1 None (py_insert 1 None scores) in
    if (3 <? length scores)%nat then py_insert 4 None (py_insert 4 None scores)
    else scores
  else scores.

Definition int_or_raise (s : string) : result Z :=
  match Text.int s with
  | Some z => Ok z
  | None => Raise ValueError
  end.

(** Lines 49-57. *)
Definition substitute_runtime (year : Z) (runtime_data : option DataTracker)
    (day : string) (scores : list (option string))
  : result (list (option string)) :=
  match runtime_data with
  | None => Raise TypeError
  | Some tracker =>
      d ← int_or_raise day;
      scores ← set_item scores 0 (runtime_text tracker year d 1);
      d ← int_or_raise day;
      set_item scores 3 (runtime_text tracker year d 2)
  end.

(** Lines 38-48 on the tokens of a line: the unpacking, the dashes, the
    normalization and the assertion. *)
Definition check_fields (year : Z) (tokens : list string)
  : result (string * list (option string)) :=
  match tokens with
  | [] => Raise ValueError
  | day :: scores =>
      let scores := normalize year (dash_to_None <$> scores) in
      if bool_decide (length scores = 3%nat \/ length scores = 6%nat)
      then Ok (day, scores)
      else Raise AssertionError
  end.

(** [re.split(r"\s+", line.strip())] *)
Definition tokens_of (line : string) : list string :=
  Text.re_split_spaces false (Text.strip line).

Definition split_line (year : Z) (line : string)
  : result (string * list (option string)) :=
  check_fields year (tokens_of line).

(** Lines 38-59 for one line of the table: the key and the record that
    line 59 stores. *)
Definition row_record (year : Z) (runtime_data : option DataTracker)
    (use_runtime : bool) (line : string) : result (Z * DayScores) :=
  '(day, scores) ← split_line year line;
  scores ← (if use_runtime
            then substitute_runtime year runtime_data day scores
            else Ok scores);
  d ← int_or_raise day;
  Ok (d, DayScores_of scores).

(** The body of the loop of lines 37-59. *)
Definition parse_row (year : Z) (runtime_data : option DataTracker)
    (use_runtime : bool) (day_to_scores : gmap Z DayScores) (line : string)
  : result (gmap Z DayScores) :=
  '(d, record) ← row_record year runtime_data use_runtime line;
  Ok (<[d := record]> day_to_scores).

(** [matches[0].strip().split("\n")] *)
Definition table_rows (body : string) : list string :=
  Text.split_char (ascii_of_nat 10) (Text.strip body).

Section Leaderboard.

(** [aoc_runner.web.get_leaderboard]: the page of a year. *)
Variable get_leaderboard : Z -> string.

Definition parse_leaderboard (year : Z) (runtime_data : option DataTracker)
    (use_runtime : bool) : result (gmap Z DayScores) :=
  if use_runtime && bool_decide (runtime_data = None :> option DataTracker)
  then Raise ValueError
  else
    let html := get_leaderboard year in
    if Text.contains no_stars html then Ok ∅
    else
      match first_match year html with
    | None => Raise AssertionError
    | Some body =>
        for_each (parse_row year runtime_data use_runtime) ∅ (table_rows body)
    end.

End Leaderboard.

(** ** tile_maker.py *)

Record YearData : Type := {
  day_to_scores : gmap Z DayScores;
  day_to_paths : gmap Z (list Language);
  day_to_stars : gmap Z nat;
}.

Record SolveData : Type := {
  year_to_data : gmap Z YearData;
}.

(** The two options after [__init__] has replaced ["auto"]. *)
Inductive RightSide : Set := Checkmark | TimeAndRank | Runtime.
Inductive SolvedWhen : Set := OnLeaderboard | FileExists | Either | Both.

(** The attributes of [self] that composition and aggregation read. *)
Record TileMaker : Type := {
  what_to_show_on_right_side : RightSide;
  count_as_solved_when : SolvedWhen;
  create_all_days : bool;
}.

(** [bool(s)] for an optional [str]. *)
Definition truthy (s : option string) : bool :=
  match s with
  | Some (String _ _) => true
  | _ => false
  end.

(** Line 203. *)
Definition leaderboard_stars (solved : option DayScores) : nat :=
  match solved with
  | None => 0
  | Some s => Nat.b2n (truthy (rank1 s)) + Nat.b2n (truthy (rank2 s))
  end.

(** Line 204; [solution] is given by its [len]. *)
Definition file_stars (solution : option nat) : nat :=
  match solution with
  | None => 0
  | Some n => n
  end.

Definition _get_stars (self : TileMaker) (solved : option DayScores)
    (solution : option nat) : nat :=
  let on_leaderboard := leaderboard_stars solved in
  let file_exists := file_stars solution in
  match count_as_solved_when self with
  | OnLeaderboard => on_leaderboard
  | FileExists => file_exists
  | Either => Nat.max on_leaderboard file_exists
  | Both => Nat.min on_leaderboard file_exists
  end.

(** Lines 213-215. *)
Definition is_leaderboard_needed (self : TileMaker) : bool :=
  match what_to_show_on_right_side self with
  | TimeAndRank | Runtime => true
  | Checkmark => false
  end
  || match count_as_solved_when self with
     | OnLeaderboard | Both | Either => true
     | FileExists => false
     end.

Definition use_runtime_of (self : TileMaker) : bool :=
  match what_to_show_on_right_side self with
  | Runtime => true
  | _ => false
  end.

(** [itertools.product(xs, ys)] *)
Definition product {A B} (xs : list A) (ys : list B) : list (A * B) :=
  x ← xs; y ← ys; [(x, y)].

(** [filter(lambda d: (year, d) in language.ran, range(1, 26))] *)
Definition days_ran (language : Language) (year : Z) : list Z :=
  filter (fun d => (year, d) ∈ ran language) (seqZ 1 25).

(** Lines 235-236. *)
Definition day25_bonus (day : Z) (stars : nat) : nat :=
  if bool_decide (day = 25) && bool_decide (stars = 1%nat) then 2%nat else stars.

(** The body of the loop of lines 233-239, on the two dictionaries it
    updates in place. *)
Definition fold_day (self : TileMaker) (tracker : DataTracker)
    (language : Language) (year : Z) (scores : gmap Z DayScores)
    (acc : gmap Z nat * gmap Z (list Language)) (day : Z)
  : gmap Z nat * gmap Z (list Language) :=
  let stars := _get_stars self (scores !! day) (day_solution tracker language year day) in
  let stars := day25_bonus day stars in
  (<[day := stars]> acc.1,
   <[day := default [] (acc.2 !! day) ++ [language]]> acc.2).

Section Compose.

Variable get_leaderboard : Z -> string.

(** The body of the loop of lines 219-241.  The state is the
    [SolveData] under construction together with the years for which
    [parse_leaderboard] has been called so far, in call order. *)
Definition compose_step (self : TileMaker) (solutions_by_year : option DataTracker)
    (st : SolveData * list Z) (pair : Language * Z)
  : result (SolveData * list Z) :=
  let '(solve_data, calls) := st in
  let '(language, year) := pair in
  match solutions_by_year with
  | None => Raise TypeError
  | Some tracker =>
      if negb (has_year tracker year) then Ok st
      else
        let known := year_to_data solve_data !! year in
        '(scores, calls) ←
          (if is_leaderboard_needed self then
             scores ← parse_leaderboard get_leaderboard year
                        solutions_by_year (use_runtime_of self);
             Ok (scores, calls ++ [year])
           else Ok (from_option day_to_scores ∅ known, calls));
        let stars := from_option day_to_stars ∅ known in
        let paths := from_option day_to_paths ∅ known in
        let '(stars, paths) :=
          foldl (fold_day self tracker language year scores) (stars, paths)
                (days_ran language year) in
        Ok ({| year_to_data :=
                 <[year := {| day_to_scores := scores;
                              day_to_paths := paths;
                              day_to_stars := stars |}]>
                   (year_to_data solve_data) |},
            calls)
  end.

Definition compose_solve_data (self : TileMaker)
    (solutions_by_year : option DataTracker)
    (languages : list Language) (years : list Z)
  : result (SolveData * list Z) :=
  for_each (compose_step self solutions_by_year)
           ({| year_to_data := ∅ |}, []) (product languages years).

End Compose.

(** [fill_empty_days_in_dict], the update of the dictionary. *)
Definition fill_empty_days_in_dict (day_to_solutions : gmap Z (list Language))
    (max_day : Z) : gmap Z (list Language) :=
  foldl (fun m day => match m !! day with
                      | Some _ => m
                      | None => <[day := []]> m
                      end)
        day_to_solutions (seqZ 1 max_day).

(** [max(xs, default=0)] *)
Definition max_default0 (xs : list Z) : Z :=
  match xs with
  | [] => 0
  | x :: xs' => foldl Z.max x xs'
  end.

(** One call of [handle_day] made by [handle_year]: the day, its
    solutions, its score record and its stars. *)
Record TileCall : Type := {
  tile_day : Z;
  tile_solutions : list Language;
  tile_scores : option DayScores;
  tile_stars : nat;
}.

(** What [handle_year] hands to its collaborators: the star total of
    the heading and the calls of [handle_day], in order. *)
Record YearOutput : Type := {
  heading_stars : nat;
  tiles : list TileCall;
}.

(** [sum(year_data.day_to_stars.values())] *)
Definition total_stars (year_data : YearData) : nat :=
  map_fold (fun _ n acc => (n + acc)%nat) 0%nat (day_to_stars year_data).

(** [handle_year], lines 288-301.  A call of [handle_day] is recorded
    by its arguments; what [handle_day] itself may raise on the file
    system is not modelled, so the only exception here is the
    [KeyError] of line 300. *)
Definition handle_year (self : TileMaker) (year : Z) (year_data : YearData)
  : result YearOutput :=
  let leaderboard := day_to_scores year_data in
  let day_to_solutions := day_to_paths year_data in
  let stars := total_stars year_data in
  let max_solved_day :=
    max_default0 ((map_to_list (day_to_stars year_data))
                    ≫= fun '(day, n) => if (0 <? n)%nat then [day] else []) in
  let max_day := if create_all_days self then 25 else max_solved_day in
  let day_to_solutions := fill_empty_days_in_dict day_to_solutions max_day in
  calls ← for_each
    (fun calls day =>
       let solutions := default [] (day_to_solutions !! day) in
       match day_to_stars year_data !! day with
       | None => Raise KeyError
       | Some stars =>
           Ok (calls ++ [{| tile_day := day;
                            tile_solutions := solutions;
                            tile_scores := leaderboard !! day;
                            tile_stars := stars |}])
       end)
    [] (seqZ 1 max_day);
  Ok {| heading_stars := stars; tiles := calls |}.

(** ** tile_maker.py: configuration, tiles and the loop over the years *)

(** [__init__], lines 161-162: ["auto"], which is [None] here, becomes
    ["both"] with a session cookie and ["file_exists"] without. *)
Definition resolve_count_as_solved_when (aoc_cookie : bool)
    (choice : option SolvedWhen) : SolvedWhen :=
  match choice with
  | Some rule => rule
  | None => if aoc_cookie then Both else FileExists
  end.

(** [__init__], lines 164-165. *)
Definition resolve_what_to_show (aoc_cookie : bool)
    (choice : option RightSide) : RightSide :=
  match choice with
  | Some shown => shown
  | None => if aoc_cookie then TimeAndRank else Checkmark
  end.

(** The attributes of [self] after [__init__], from the command-line
    choices and the truth value of [AOC_COOKIE]. *)
Definition TileMaker_init (aoc_cookie : bool) (shown : option RightSide)
    (solved_when : option SolvedWhen) (all_days : bool) : TileMaker :=
  {| what_to_show_on_right_side := resolve_what_to_show aoc_cookie shown;
     count_as_solved_when := resolve_count_as_solved_when aoc_cookie solved_when;
     create_all_days := all_days |}.

(** Line 294 of [handle_year]. *)
Definition max_solved_day (year_data : YearData) : Z :=
  max_default0 ((map_to_list (day_to_stars year_data))
                  ≫= fun '(day, n) => if (0 <? n)%nat then [day] else []).

(** Line 295 of [handle_year]. *)
Definition max_day_of (self : TileMaker) (year_data : YearData) : Z :=
  if create_all_days self then 25 else max_solved_day year_data.

Section Titles.

(** [str.title], applied to the [lang] attribute of a language. *)
Variable title : string -> string.

(** [lang in language_to_colors()]; the table is in colors.py. *)
Variable has_color : string -> bool.

(** The body of the loop of lines 278-282: [languages] is [None] before
    the first day. *)
Definition used_daily_step (languages : option (gset string))
    (paths : list Language) : option (gset string) :=
  let suffixes : gset string := list_to_set ((fun path => title (lang path)) <$> paths) in
  let languages := from_option id suffixes languages in
  Some (languages ∩ suffixes).

(** [_get_programming_languages_used_daily]; the order of the list it
    returns is that of a [set], so the result is given as a set. *)
Definition _get_programming_languages_used_daily (year_data : YearData)
  : gset string :=
  match foldl used_daily_step None (map_to_list (day_to_paths year_data)).*2 with
  | Some languages => languages
  | None => ∅
  end.

(** Lines 255-259 of [handle_day]: the language names handed to
    [draw_tile]. *)
Definition tile_languages (solutions : list Language) : list string :=
  foldl (fun languages solution =>
           let name := title (lang solution) in
           if has_color name && bool_decide (name ∉ languages)
           then languages ++ [name]
           else languages)
        [] solutions.

End Titles.

(** The order of [sorted(..., reverse=True)] on the items of
    [year_to_data]: the keys of a dictionary are distinct, so the pairs
    are ordered by year alone, largest first. *)
Definition not_older (a b : Z * YearData) : Prop := b.1 <= a.1.

#[global] Instance not_older_dec a b : Decision (not_older a b).
Proof. unfold not_older. apply _. Defined.

(** [sorted(solve_data.year_to_data.items(), reverse=True)] *)
Definition years_newest_first (solve_data : SolveData) : list (Z * YearData) :=
  merge_sort not_older (map_to_list (year_to_data solve_data)).

(** The loop of lines 183-184 of [__call__]: the years handled so far
    with what each handed to its collaborators. *)
Definition render_years (self : TileMaker) (solve_data : SolveData)
  : result (list (Z * YearOutput)) :=
  for_each (fun done (entry : Z * YearData) =>
              output ← handle_year self entry.1 entry.2;
              Ok (done ++ [(entry.1, output)]))
           [] (years_newest_first solve_data).

(** ** Vocabulary of the statements *)

(** The number of leaf fields of a record that are not [None]. *)
Definition populated (r : DayScores) : nat :=
  length (omap id [time1 r; rank1 r; score1 r; time2 r; rank2 r; score2 r]).

(** The pair [(language, year)] makes the loop of lines 233-239 visit
    [day] of [year]. *)
Definition visits (year day : Z) (pair : Language * Z) : Prop :=
  pair.2 = year /\ day ∈ days_ran pair.1 year.

#[global] Instance visits_dec year day pair : Decision (visits year day pair).
Proof. unfold visits. apply _. Defined.

(** The languages of the pairs that visit [day] of [year], in order. *)
Definition contributors (pairs : list (Language * Z)) (year day : Z)
  : list Language :=
  (filter (visits year day) pairs).*1.

(** What lines 234-236 compute for one language. *)
Definition decided (self : TileMaker) (tracker : DataTracker)
    (scores : gmap Z DayScores) (year day : Z) (language : Language) : nat :=
  day25_bonus day
    (_get_stars self (scores !! day) (day_solution tracker language year day)).

(** The snapshot every language of [year] is scored against: the parsed
    leaderboard when one is needed, the empty dictionary otherwise. *)
Definition scores_used (get_leaderboard : Z -> string) (self : TileMaker)
    (tracker : DataTracker) (year : Z) : gmap Z DayScores :=
  if is_leaderboard_needed self then
    match parse_leaderboard get_leaderboard year (Some tracker)
            (use_runtime_of self) with
    | Ok scores => scores
    | Raise _ => ∅
    end
  else ∅.

(** A [defaultdict(list)] holds a key as soon as its list was touched. *)
Definition nonempty {A} (l : list A) : option (list A) :=
  match l with
  | [] => None
  | _ => Some l
  end.

(** The stored star count of a day in a composed state, if any. *)
Definition stars_at (solve_data : SolveData) (year day : Z) : option nat :=
  year_to_data solve_data !! year ≫= fun yd => day_to_stars yd !! day.

(** The record that [line] stores under [day], if it stores one there. *)
Definition record_for (year : Z) (runtime_data : option DataTracker)
    (use_runtime : bool) (day : Z) (line : string) : option DayScores :=
  match row_record year runtime_data use_runtime line with
  | Ok (d, record) => if decide (d = day) then Some record else None
  | Raise _ => None
  end.

(** ** Sample inputs *)

Module Samples.

(** A page of the newer format with the given table body. *)
Definition page_2025 (body : string) : string :=
  "<article><pre>" +:+ span_open +:+ "-Part 2-</span>" +:+ Text.nl
    +:+ body +:+ "</pre></article>".

(** A page of the older format with the given table body. *)
Definition page_legacy (body : string) : string :=
  "<article><pre>" +:+ span_open +:+ "    Time   Rank  Score</span>" +:+ Text.nl
    +:+ body +:+ "</pre></article>".

Definition rank_and_score_page : string :=
  page_2025 ("5 - 99 888" +:+ Text.nl).

Definition times_only_page : string :=
  page_2025 ("  4   00:11:11   00:22:22" +:+ Text.nl
             +:+ "  5   00:12:34" +:+ Text.nl).

Definition single_part_page : string :=
  page_legacy ("  5   00:12:34    123    456" +:+ Text.nl).

Definition both_parts_page : string :=
  page_legacy ("  5   00:12:34    123    456   01:02:03     45    678" +:+ Text.nl).

Definition dashed_page : string :=
  page_legacy ("  5   00:12:34      -    456" +:+ Text.nl).

Definition not_a_leaderboard : string := "<html>503</html>".

Definition python : Language := {| lang := "python"; ran := {[ (2020, 2) ]} |}.
Definition rust : Language := {| lang := "rust"; ran := {[ (2020, 2) ]} |}.
Definition go : Language := {| lang := "go"; ran := {[ (2020, 25) ]} |}.

(** Two files of [python] and one of any other language for every day;
    a measured runtime for part 1 of day 5 of 2020 only. *)
Definition tracker : DataTracker :=
  {| has_year := fun y => bool_decide (y = 2020 \/ y = 2021);
     day_solution := fun language _ _ =>
       if String.eqb (lang language) "python" then Some 2%nat else Some 1%nat;
     runtime_text := fun y d p =>
       if bool_decide (y = 2020 /\ d = 5 /\ p = 1) then Some "1.500" else None |}.

Definition by_files : TileMaker :=
  {| what_to_show_on_right_side := Checkmark;
     count_as_solved_when := FileExists;
     create_all_days := false |}.

Definition by_either : TileMaker :=
  {| what_to_show_on_right_side := TimeAndRank;
     count_as_solved_when := Either;
     create_all_days := false |}.

Definition all_days : TileMaker :=
  {| what_to_show_on_right_side := Checkmark;
     count_as_solved_when := FileExists;
     create_all_days := true |}.

(** 2020 serves a leaderboard, any other year does not. *)
Definition pages (year : Z) : string :=
  if year =? 2020 then both_parts_page else not_a_leaderboard.

End Samples.

(** Further sample inputs. *)

Module MoreSamples.

Definition fresh_account_page : string :=
  "<article><p>" +:+ no_stars +:+ "</p></article>".

Definition repeated_day_body : string :=
  "  5   00:12:34    123    456   01:02:03     45    678" +:+ Text.nl
  +:+ " 05   00:30:00    900      0" +:+ Text.nl.

Definition repeated_day_page : string := Samples.page_legacy repeated_day_body.

Definition heading_inside_body : string :=
  "Day       Time   Rank  Score" +:+ Text.nl
  +:+ "  5   00:12:34    123    456" +:+ Text.nl.

(** A page whose start marker is followed by a heading line. *)
Definition heading_inside_page : string :=
  Samples.page_legacy heading_inside_body.

Definition zig : Language := {| lang := "zig"; ran := {[ (2025, 4) ]} |}.
Definition ada : Language := {| lang := "ada"; ran := {[ (2020, 1) ]} |}.

(** A tracker that knows 2025 only, with two files for every day. *)
Definition tracker_2025 : DataTracker :=
  {| has_year := fun y => bool_decide (y = 2025);
     day_solution := fun _ _ _ => Some 2%nat;
     runtime_text := fun _ _ _ => None |}.

Definition by_both : TileMaker :=
  {| what_to_show_on_right_side := TimeAndRank;
     count_as_solved_when := Both;
     create_all_days := false |}.

Definition by_runtime : TileMaker :=
  {| what_to_show_on_right_side := Runtime;
     count_as_solved_when := Either;
     create_all_days := false |}.

End MoreSamples.

(** * Properties *)

(** ** The exception monad and the loops *)

Lemma for_each_app {S X} (body : S -> X -> result S) (s : S) (xs ys : list X) :
  for_each body s (xs ++ ys) = s' ← for_each body s xs; for_each body s' ys.
Proof.
  revert s. induction xs as [|x xs IH]; intros s; simpl; [done|].
  unfold mbind, result_bind. destruct (body s x); [apply IH | done].
Qed.

Lemma for_each_snoc_ok {S X} (body : S -> X -> result S) (s s'' : S) xs x :
  for_each body s (xs ++ [x]) = Ok s'' ->
  exists s', for_each body s xs = Ok s' /\ body s' x = Ok s''.
Proof.
  rewrite for_each_app. unfold mbind, result_bind.
  destruct (for_each body s xs) as [s'|]; [|done]. simpl.
  destruct (body s' x) as [t|] eqn:E; [|done].
  intros [= <-]. exists s'. by rewrite E.
Qed.

(** A loop raises as soon as one of its elements makes the body raise
    whatever the state. *)
Lemma for_each_raises {S X} (body : S -> X -> result S) (s : S) xs x :
  x ∈ xs -> (forall s, succeeds (body s x) = false) ->
  succeeds (for_each body s xs) = false.
Proof.
  intros Hin Hx. revert s. induction xs as [|y xs IH]; intros s.
  - inversion Hin.
  - simpl. unfold mbind, result_bind.
    destruct (body s y) as [s'|e] eqn:E; [|done].
    apply elem_of_cons in Hin as [->|Hin]; [|by apply IH].
    specialize (Hx s). by rewrite E in Hx.
Qed.

(** A loop succeeds when the body succeeds on each element whatever the
    state. *)
Lemma for_each_succeeds {S X} (body : S -> X -> result S) (s : S) xs :
  (forall x s, x ∈ xs -> succeeds (body s x) = true) ->
  succeeds (for_each body s xs) = true.
Proof.
  revert s. induction xs as [|y xs IH]; intros s Hall; [done|].
  simpl. unfold mbind, result_bind.
  pose proof (Hall y s ltac:(left)) as Hy.
  destruct (body s y) as [s'|e]; [|done].
  apply IH. intros x s0 Hx. apply Hall. by right.
Qed.

Lemma succeeds_false {A} (m : result A) :
  succeeds m = false <-> exists e, m = Raise e.
Proof. destruct m; simpl; split; try done; eauto. by intros [? ?]. Qed.

Lemma succeeds_true {A} (m : result A) :
  succeeds m = true <-> exists a, m = Ok a.
Proof. destruct m; simpl; split; try done; eauto. by intros [? ?]. Qed.

(** ** The loop over the days of one language *)

Lemma elem_of_days_ran language year day :
  day ∈ days_ran language year <-> (1 <= day <= 25) /\ (year, day) ∈ ran language.
Proof.
  unfold days_ran. rewrite list_elem_of_filter, elem_of_seqZ. intuition lia.
Qed.

Lemma NoDup_days_ran language year : NoDup (days_ran language year).
Proof. apply NoDup_filter, NoDup_seqZ. Qed.

Lemma foldl_fold_day_stars self tracker language year scores days acc day :
  (foldl (fold_day self tracker language year scores) acc days).1 !! day
  = if decide (day ∈ days)
    then Some (decided self tracker scores year day language)
    else acc.1 !! day.
Proof.
  revert acc. induction days as [|d days IH]; intros acc; cbn [foldl].
  - by rewrite decide_False by apply not_elem_of_nil.
  - rewrite IH. destruct (decide (day ∈ days)) as [Hin|Hnin].
    + rewrite decide_True by (by right). done.
    + cbn [fold_day fst]. destruct (decide (d = day)) as [->|Hne].
      * rewrite decide_True by left. by rewrite lookup_insert_eq.
      * rewrite decide_False by (rewrite elem_of_cons; intros [?|?]; done).
        by rewrite lookup_insert_ne.
Qed.

Lemma foldl_fold_day_paths self tracker language year scores days acc day :
  NoDup days ->
  (foldl (fold_day self tracker language year scores) acc days).2 !! day
  = if decide (day ∈ days)
    then Some (default [] (acc.2 !! day) ++ [language])
    else acc.2 !! day.
Proof.
  intros Hnd. revert acc.
  induction days as [|d days IH]; intros acc; cbn [foldl].
  - by rewrite decide_False by apply not_elem_of_nil.
  - apply NoDup_cons in Hnd as [Hd Hnd]. rewrite (IH Hnd). cbn [fold_day snd].
    destruct (decide (day ∈ days)) as [Hin|Hnin].
    + rewrite decide_True by (by right).
      rewrite lookup_insert_ne by (intros ->; done). done.
    + destruct (decide (d = day)) as [->|Hne].
      * rewrite decide_True by left. by rewrite lookup_insert_eq.
      * rewrite decide_False by (rewrite elem_of_cons; intros [?|?]; done).
        by rewrite lookup_insert_ne.
Qed.

(** ** Contributors of a day *)

Lemma contributors_app pairs1 pairs2 year day :
  contributors (pairs1 ++ pairs2) year day
  = contributors pairs1 year day ++ contributors pairs2 year day.
Proof. unfold contributors. by rewrite filter_app, fmap_app. Qed.

Lemma contributors_single language y year day :
  contributors [(language, y)] year day
  = if decide (y = year /\ day ∈ days_ran language year) then [language] else [].
Proof.
  unfold contributors. rewrite filter_cons, filter_nil.
  destruct (decide (y = year /\ day ∈ days_ran language year)) as [[-> ?]|Hn].
  - by rewrite decide_True by (by split).
  - rewrite decide_False; [done|]. intros [? ?]. apply Hn. simpl in *. by subst.
Qed.

Lemma contributors_other_year pairs year day :
  (forall pair, pair ∈ pairs -> pair.2 <> year) ->
  contributors pairs year day = [].
Proof.
  intros Hno. unfold contributors.
  induction pairs as [|p pairs IH]; [done|].
  rewrite filter_cons. rewrite decide_False.
  - apply IH. intros q Hq. apply Hno. by right.
  - intros [Hy _]. by apply (Hno p); [left|].
Qed.

(** ** One step of the composition loop *)

Section ComposeFacts.

Variable get_leaderboard : Z -> string.
Variable self : TileMaker.
Variable tracker : DataTracker.

#[local] Abbreviation board year :=
  (parse_leaderboard get_leaderboard year (Some tracker) (use_runtime_of self)).
#[local] Abbreviation step := (compose_step get_leaderboard self (Some tracker)).
#[local] Abbreviation used := (scores_used get_leaderboard self tracker).
#[local] Abbreviation known sd year := (year_to_data sd !! year).

Lemma compose_step_skip st language year :
  has_year tracker year = false -> step st (language, year) = Ok st.
Proof. intros H. destruct st. unfold compose_step. by rewrite H. Qed.

Lemma compose_step_inv sd calls language year sd' calls' :
  has_year tracker year = true ->
  step (sd, calls) (language, year) = Ok (sd', calls') ->
  exists scores yd,
    (if is_leaderboard_needed self
     then board year = Ok scores /\ calls' = calls ++ [year]
     else scores = from_option day_to_scores ∅ (known sd year) /\ calls' = calls)
    /\ year_to_data sd' = <[year := yd]> (year_to_data sd)
    /\ day_to_scores yd = scores
    /\ (forall day,
          day_to_stars yd !! day
          = if decide (day ∈ days_ran language year)
            then Some (decided self tracker scores year day language)
            else from_option day_to_stars ∅ (known sd year) !! day)
    /\ (forall day,
          day_to_paths yd !! day
          = if decide (day ∈ days_ran language year)
            then Some (default [] (from_option day_to_paths ∅ (known sd year) !! day)
                       ++ [language])
            else from_option day_to_paths ∅ (known sd year) !! day).
Proof.
  intros Hyear. unfold compose_step. rewrite Hyear. cbn [negb].
  set (P := is_leaderboard_needed self).
  assert (forall scores calls1,
    (let '(stars, paths) :=
       foldl (fold_day self tracker language year scores)
         (from_option day_to_stars ∅ (known sd year),
          from_option day_to_paths ∅ (known sd year))
         (days_ran language year) in
     Ok ({| year_to_data :=
              <[year := {| day_to_scores := scores; day_to_paths := paths;
                           day_to_stars := stars |}]> (year_to_data sd) |},
         calls1)) = Ok (sd', calls') ->
    calls1 = calls' /\
    exists yd, year_to_data sd' = <[year := yd]> (year_to_data sd)
    /\ day_to_scores yd = scores
    /\ (forall day,
          day_to_stars yd !! day
          = if decide (day ∈ days_ran language year)
            then Some (decided self tracker scores year day language)
            else from_option day_to_stars ∅ (known sd year) !! day)
    /\ (forall day,
          day_to_paths yd !! day
          = if decide (day ∈ days_ran language year)
            then Some (default [] (from_option day_to_paths ∅ (known sd year) !! day)
                       ++ [language])
            else from_option day_to_paths ∅ (known sd year) !! day)) as Hloop.
  { intros scores calls1.
    destruct (foldl _ _ _) as [stars paths] eqn:E. intros [= <- <-].
    split; [done|]. eexists. split; [reflexivity|]. split; [done|]. split.
    - intros day. cbn [day_to_stars].
      pose proof (foldl_fold_day_stars self tracker language year scores
        (days_ran language year)
        (from_option day_to_stars ∅ (known sd year),
         from_option day_to_paths ∅ (known sd year)) day) as H.
      by rewrite E in H.
    - intros day. cbn [day_to_paths].
      pose proof (foldl_fold_day_paths self tracker language year scores
        (days_ran language year)
        (from_option day_to_stars ∅ (known sd year),
         from_option day_to_paths ∅ (known sd year)) day
        (NoDup_days_ran _ _)) as H.
      by rewrite E in H. }
  destruct P.
  - unfold mbind at 1, result_bind at 1.
    destruct (board year) as [scores|e] eqn:Hboard; [|done].
    unfold mbind, result_bind. intros H.
    apply Hloop in H as [<- (yd & ?)]. exists scores, yd. by split.
  - unfold mbind, result_bind. intros H.
    apply Hloop in H as [<- (yd & ?)]. eexists _, yd. by split.
Qed.

Lemma nonempty_snoc {A} (l : list A) x :
  nonempty (l ++ [x]) = Some (default [] (nonempty l) ++ [x]).
Proof. by destruct l. Qed.

(** ** The composition loop on any list of pairs *)

Lemma compose_pairs_inv pairs sd calls :
  for_each step ({| year_to_data := ∅ |}, []) pairs = Ok (sd, calls) ->
  calls = (if is_leaderboard_needed self
           then filter (fun y => has_year tracker y = true) pairs.*2
           else [])
  /\ forall year,
       match known sd year with
       | None =>
           forall pair, pair ∈ pairs -> pair.2 = year -> has_year tracker year = false
       | Some yd =>
           has_year tracker year = true
           /\ year ∈ pairs.*2
           /\ day_to_scores yd = used year
           /\ (is_leaderboard_needed self = true -> board year = Ok (used year))
           /\ (forall day,
                 day_to_stars yd !! day
                 = decided self tracker (used year) year day
                     <$> last (contributors pairs year day))
           /\ (forall day,
                 day_to_paths yd !! day = nonempty (contributors pairs year day))
       end.
Proof.
  revert sd calls. induction pairs as [|[language y0] pairs IH] using rev_ind;
    intros sd calls Hrun.
  { injection Hrun as <- <-. split; [by destruct (is_leaderboard_needed self)|].
    intros year. cbn [year_to_data]. rewrite lookup_empty.
    intros pair Hin. by apply elem_of_nil in Hin. }
  apply for_each_snoc_ok in Hrun as ([sd1 calls1] & Hrun & Hstep).
  destruct (IH _ _ Hrun) as [Hcalls1 Hinv1]. clear IH Hrun.
  rewrite fmap_app, filter_app. cbn [fmap list_fmap snd].
  assert (forall year day, year <> y0 ->
            contributors (pairs ++ [(language, y0)]) year day
            = contributors pairs year day) as Hother.
  { intros year day Hne. rewrite contributors_app, contributors_single.
    rewrite decide_False by (intros [? _]; congruence). apply app_nil_r. }
  destruct (has_year tracker y0) eqn:Hy0.
  2:{ rewrite compose_step_skip in Hstep by done. injection Hstep as <- <-.
      split.
      { rewrite filter_cons, filter_nil, decide_False by (by rewrite Hy0).
        by rewrite app_nil_r. }
      intros year. specialize (Hinv1 year).
      destruct (known sd1 year) as [yd|].
      - destruct Hinv1 as (Hy & Hin & Hsc & Hb & Hst & Hpa).
        assert (year <> y0) as Hne by congruence.
        repeat split; try done.
        + rewrite elem_of_app. by left.
        + intros day. by rewrite Hother.
        + intros day. by rewrite Hother.
      - intros pair [Hin|Hin]%elem_of_app Hp; [by apply (Hinv1 pair)|].
        apply list_elem_of_singleton in Hin as ->. simpl in Hp. by subst. }
  apply compose_step_inv in Hstep as (scores & yd & Hsc & Hsd & Hyd & Hst & Hpa);
    [|done].
  split.
  { rewrite filter_cons, filter_nil.
    rewrite decide_True by done.
    destruct (is_leaderboard_needed self); destruct Hsc as [_ ->]; by rewrite Hcalls1. }
  assert (scores = used y0 /\
          (is_leaderboard_needed self = true -> board y0 = Ok (used y0))) as [-> Hb0].
  { unfold scores_used. destruct (is_leaderboard_needed self) eqn:Hneed.
    - destruct Hsc as [Hb _]. rewrite Hb. done.
    - destruct Hsc as [-> _]. split; [|done].
      pose proof (Hinv1 y0) as H0. destruct (known sd1 y0) as [yd1|]; [|done].
      destruct H0 as (_ & _ & H0 & _). cbn [from_option]. rewrite H0.
      unfold scores_used. by rewrite Hneed. }
  assert (forall day,
    from_option day_to_stars ∅ (known sd1 y0) !! day
    = decided self tracker (used y0) y0 day <$> last (contributors pairs y0 day)
    /\ from_option day_to_paths ∅ (known sd1 y0) !! day
       = nonempty (contributors pairs y0 day)) as Hprev.
  { intros day. pose proof (Hinv1 y0) as H0.
    destruct (known sd1 y0) as [yd1|]; cbn [from_option].
    - destruct H0 as (_ & _ & _ & _ & H1 & H2). by rewrite H1, H2.
    - rewrite contributors_other_year; [by rewrite !lookup_empty|].
      intros pair Hin Hp. specialize (H0 pair Hin Hp). congruence. }
  intros year. rewrite Hsd. destruct (decide (year = y0)) as [->|Hne].
  - rewrite lookup_insert_eq. repeat split; try done.
    + rewrite elem_of_app. right. by left.
    + intros day. rewrite Hst, contributors_app, contributors_single.
      destruct (decide (day ∈ days_ran language y0)) as [Hd|Hd].
      * rewrite decide_True by done. by rewrite last_snoc.
      * rewrite decide_False by (by intros [_ ?]).
        rewrite app_nil_r. apply Hprev.
    + intros day. rewrite Hpa, contributors_app, contributors_single.
      destruct (decide (day ∈ days_ran language y0)) as [Hd|Hd].
      * rewrite decide_True by done. rewrite nonempty_snoc.
        by destruct (Hprev day) as [_ ->].
      * rewrite decide_False by (by intros [_ ?]).
        rewrite app_nil_r. apply Hprev.
  - rewrite lookup_insert_ne by done. specialize (Hinv1 year).
    destruct (known sd1 year) as [yd1|].
    + destruct Hinv1 as (Hy & Hin & Hsc1 & Hb & Hst1 & Hpa1).
      repeat split; try done.
      * rewrite elem_of_app. by left.
      * intros day. by rewrite Hother.
      * intros day. by rewrite Hother.
    + intros pair [Hin|Hin]%elem_of_app Hp; [by apply (Hinv1 pair)|].
      apply list_elem_of_singleton in Hin as ->. simpl in Hp. by subst.
Qed.

Lemma compose_step_succeeds st pair :
  (has_year tracker pair.2 = true -> is_leaderboard_needed self = true ->
   succeeds (board pair.2) = true) ->
  succeeds (step st pair) = true.
Proof.
  destruct st as [sd calls], pair as [language year]. cbn [snd]. intros Hb.
  unfold compose_step. destruct (has_year tracker year); [|done]. cbn [negb].
  destruct (is_leaderboard_needed self).
  - specialize (Hb eq_refl eq_refl).
    destruct (board year) as [scores|]; [|done].
    unfold mbind, result_bind. by destruct (foldl _ _ _).
  - unfold mbind, result_bind. by destruct (foldl _ _ _).
Qed.

Lemma compose_step_fails st pair :
  has_year tracker pair.2 = true -> is_leaderboard_needed self = true ->
  succeeds (board pair.2) = false ->
  succeeds (step st pair) = false.
Proof.
  destruct st as [sd calls], pair as [language year]. cbn [snd].
  intros Hy Hneed Hb. unfold compose_step. rewrite Hy, Hneed. cbn [negb].
  by destruct (board year).
Qed.

End ComposeFacts.

(** ** The order of [itertools.product] *)

Lemma product_cons {A B} (x : A) xs (ys : list B) :
  product (x :: xs) ys = (pair x <$> ys) ++ product xs ys.
Proof.
  unfold product. rewrite bind_cons. f_equal.
Qed.

Lemma product_snoc {A B} (x : A) xs (ys : list B) :
  product (xs ++ [x]) ys = product xs ys ++ (pair x <$> ys).
Proof.
  unfold product. rewrite bind_app. f_equal.
  rewrite bind_cons. apply app_nil_r.
Qed.

Lemma elem_of_product {A B} (x : A) (y : B) xs ys :
  (x, y) ∈ product xs ys <-> x ∈ xs /\ y ∈ ys.
Proof.
  induction xs as [|x' xs IH].
  - unfold product. simpl. rewrite !elem_of_nil. tauto.
  - rewrite product_cons, elem_of_app, IH, elem_of_cons, list_elem_of_fmap.
    split.
    + intros [(y' & [= -> ->] & Hy)|[? ?]]; tauto.
    + intros [[->|Hx] Hy]; [left; eauto | tauto].
Qed.

Lemma product_years {A} (xs : list A) (ys : list Z) :
  (product xs ys).*2 = xs ≫= fun _ => ys.
Proof.
  induction xs as [|x xs IH]; [done|].
  rewrite product_cons, fmap_app, IH, bind_cons. f_equal.
  rewrite <-list_fmap_compose. apply list_fmap_id.
Qed.

Lemma Permutation_product {A B} (xs xs' : list A) (ys : list B) :
  xs ≡ₚ xs' -> product xs ys ≡ₚ product xs' ys.
Proof. intros H. unfold product. by rewrite H. Qed.

Lemma last_contributors_row language years year day :
  last (contributors (pair language <$> years) year day)
  = if decide (year ∈ years /\ day ∈ days_ran language year)
    then Some language else None.
Proof.
  induction years as [|y years IH].
  - rewrite decide_False; [done|]. intros [H _]. by apply elem_of_nil in H.
  - change (pair language <$> y :: years)
      with ([(language, y)] ++ (pair language <$> years)).
    rewrite contributors_app, last_app, IH, contributors_single.
    destruct (decide (year ∈ years /\ day ∈ days_ran language year)) as [[? ?]|Hn].
    + rewrite decide_True; [done|]. split; [by right|done].
    + destruct (decide (y = year /\ day ∈ days_ran language year)) as [[-> ?]|Hn'].
      * rewrite decide_True; [done|]. split; [left|done].
      * rewrite decide_False; [done|]. rewrite elem_of_cons.
        intros [[->|?] ?]; tauto.
Qed.

(** For a year that is listed, the last pair visiting a day belongs to
    the last language that ran this day. *)
Lemma last_contributors_product languages years year day :
  year ∈ years ->
  last (contributors (product languages years) year day)
  = last (filter (fun language => day ∈ days_ran language year) languages).
Proof.
  intros Hy. induction languages as [|language languages IH] using rev_ind.
  - done.
  - rewrite product_snoc, contributors_app, last_app, last_contributors_row.
    rewrite filter_app, last_app, filter_cons, filter_nil, IH.
    destruct (decide (day ∈ days_ran language year)).
    + by rewrite decide_True.
    + rewrite decide_False by tauto. done.
Qed.

(** ** StarPolicy *)

Lemma leaderboard_stars_le solved : (leaderboard_stars solved <= 2)%nat.
Proof.
  destruct solved as [s|]; simpl; [|lia].
  destruct (truthy (rank1 s)), (truthy (rank2 s)); simpl; lia.
Qed.

(** C5, as the code has it.  [remote] is the number of the two rank
    fields of the day's record that hold a non-empty string, 0 for an
    absent record, never more than 2; [local] is the number of solution
    files itself, 0 for an absent solution.  [_get_stars] returns
    [remote] under [on_leaderboard], [local] under [file_exists],
    [max remote local] under [either] and [min remote local] under
    [both].  The local count is not capped: only [both] coincides with
    the capped formula unconditionally, [file_exists] and [either]
    coincide with it, and stay within 0..2, when [local <= 2]. *)
Theorem C5_star_policy self solved solution :
  let present (rank : option string) : nat :=
    match rank with
    | Some (String _ _) => 1%nat
    | Some EmptyString | None => 0%nat
    end in
  let remote : nat :=
    match solved with
    | Some record => (present (rank1 record) + present (rank2 record))%nat
    | None => 0%nat
    end in
  let local : nat :=
    match solution with
    | Some files => files
    | None => 0%nat
    end in
  (remote <= 2)%nat
  /\ _get_stars self solved solution
     = match count_as_solved_when self with
       | OnLeaderboard => remote
       | FileExists => local
       | Either => Nat.max remote local
       | Both => Nat.min remote local
       end
  /\ (count_as_solved_when self = Both ->
      _get_stars self solved solution = Nat.min remote (Nat.min local 2))
  /\ match count_as_solved_when self with
     | OnLeaderboard | Both => (_get_stars self solved solution <= 2)%nat
     | FileExists =>
         (local <= 2)%nat ->
         (_get_stars self solved solution <= 2)%nat
         /\ _get_stars self solved solution = Nat.min local 2
     | Either =>
         (local <= 2)%nat ->
         (_get_stars self solved solution <= 2)%nat
         /\ _get_stars self solved solution = Nat.max remote (Nat.min local 2)
     end.
Proof.
  intros present remote local.
  assert (leaderboard_stars solved = remote) as Hremote.
  { destruct solved as [record|]; [|done]. cbn.
    by destruct (rank1 record) as [[|? ?]|], (rank2 record) as [[|? ?]|]. }
  assert (file_stars solution = local) as Hlocal by (by destruct solution).
  pose proof (leaderboard_stars_le solved) as Hr. rewrite Hremote in Hr.
  split; [done|]. unfold _get_stars. rewrite Hremote, Hlocal.
  destruct (count_as_solved_when self); repeat split; try done; try lia.
  all: intros; lia.
Qed.

Lemma C5_star_policy_witness :
  let solved := Some {| time1 := None; rank1 := Some "123"; score1 := Some "456";
                        time2 := None; rank2 := None; score2 := None |} in
  ((_get_stars Samples.by_either solved (Some 2%nat) <= 2)%nat
   /\ _get_stars Samples.by_either solved (Some 2%nat) = Nat.max 1 (Nat.min 2 2))
  /\ _get_stars Samples.by_files solved (Some 3%nat) = 3%nat
  /\ _get_stars Samples.by_either solved (Some 0%nat) = 1%nat.
Proof.
  intros solved. split; [|split].
  - destruct (C5_star_policy Samples.by_either solved (Some 2%nat))
      as (_ & _ & _ & H).
    apply H. simpl. lia.
  - by destruct (C5_star_policy Samples.by_files solved (Some 3%nat))
      as (_ & -> & _).
  - by destruct (C5_star_policy Samples.by_either solved (Some 0%nat))
      as (_ & -> & _).
Defined.

(** C5 as stated fails: three solution files under [file_exists] count
    as three stars, which is neither [min 3 2] nor within 0..2. *)
Lemma C5_counterexample :
  _get_stars Samples.by_files None (Some 3%nat) = 3%nat
  /\ _get_stars Samples.by_files None (Some 3%nat) <> Nat.min 3 2
  /\ ~ (_get_stars Samples.by_files None (Some 3%nat) <= 2)%nat.
Proof. vm_compute. repeat split; [discriminate | lia]. Qed.

(** ** The rows of the table *)

Lemma check_fields_newer year day fields :
  2025 <= year ->
  check_fields year (day :: fields)
  = match fields with
    | [t1] => Ok (day, [dash_to_None t1; None; None])
    | [t1; t2] =>
        Ok (day, [dash_to_None t1; None; None; dash_to_None t2; None; None])
    | _ => Raise AssertionError
    end.
Proof.
  intros Hy. unfold check_fields, normalize.
  replace (2025 <=? year) with true by (symmetry; by apply Z.leb_le).
  by destruct fields as [|t1 [|t2 [|t3 rest]]].
Qed.

Lemma check_fields_older year day fields :
  year < 2025 ->
  check_fields year (day :: fields)
  = if bool_decide (length fields = 3%nat \/ length fields = 6%nat)
    then Ok (day, dash_to_None <$> fields)
    else Raise AssertionError.
Proof.
  intros Hy. unfold check_fields, normalize.
  replace (2025 <=? year) with false by (symmetry; apply Z.leb_gt; lia).
  by rewrite length_fmap.
Qed.

Lemma parse_row_raises year runtime_data use_runtime day_to_scores line :
  succeeds (split_line year line) = false ->
  succeeds (parse_row year runtime_data use_runtime day_to_scores line) = false.
Proof.
  unfold parse_row, row_record. by destruct (split_line year line).
Qed.

Lemma parse_rows_inv year runtime_data use_runtime rows m0 m d record :
  for_each (parse_row year runtime_data use_runtime) m0 rows = Ok m ->
  m !! d = Some record ->
  m0 !! d = Some record
  \/ exists line, line ∈ rows
       /\ row_record year runtime_data use_runtime line = Ok (d, record).
Proof.
  revert m0. induction rows as [|line rows IH]; intros m0 Hrun Hm.
  - injection Hrun as <-. by left.
  - cbn [for_each] in Hrun. unfold mbind at 1, result_bind at 1 in Hrun.
    destruct (parse_row _ _ _ m0 line) as [m1|] eqn:Hrow; [|done].
    destruct (IH _ Hrun Hm) as [Hm1|(l & Hl & Hrec)].
    + unfold parse_row in Hrow.
      destruct (row_record _ _ _ line) as [[d1 r1]|] eqn:Hrec; [|done].
      injection Hrow as <-. destruct (decide (d1 = d)) as [->|Hne].
      * rewrite lookup_insert_eq in Hm1. injection Hm1 as ->.
        right. exists line. split; [left|done].
      * rewrite lookup_insert_ne in Hm1 by done. by left.
    + right. exists l. split; [by right|done].
Qed.

(** C1, as the code has it.  From 2025 on a line carries the day and
    one or two fields.  The two absent values go after the first field,
    which stays part 1's time, and a second field becomes part 2's time,
    followed by two more absent values.  A line with three fields, such
    as ["5 - 99 888"], has seven fields after the insertions and is
    rejected by the assertion, so that parsing a page whose table holds
    it raises. *)
Theorem C1_newer_format_rows year day fields :
  2025 <= year ->
  check_fields year (day :: fields)
  = match fields with
    | [t1] => Ok (day, [dash_to_None t1; None; None])
    | [t1; t2] =>
        Ok (day, [dash_to_None t1; None; None; dash_to_None t2; None; None])
    | _ => Raise AssertionError
    end
  /\ forall get_leaderboard runtime_data use_runtime body line,
       Text.contains no_stars (get_leaderboard year) = false ->
       first_match year (get_leaderboard year) = Some body ->
       line ∈ table_rows body ->
       Text.strip line = "5 - 99 888" ->
       exists e,
         parse_leaderboard get_leaderboard year runtime_data use_runtime = Raise e.
Proof.
  intros Hy. split; [by apply check_fields_newer|].
  intros get_leaderboard runtime_data use_runtime body line Hstars Hbody Hline Hstrip.
  apply succeeds_false. unfold parse_leaderboard.
  destruct (use_runtime && _); [done|]. rewrite Hstars, Hbody.
  apply (for_each_raises _ _ _ line Hline). intros m.
  apply parse_row_raises. unfold split_line, tokens_of. rewrite Hstrip.
  change (Text.re_split_spaces false "5 - 99 888") with ["5"; "-"; "99"; "888"].
  by rewrite check_fields_newer.
Qed.

Lemma C1_newer_format_rows_witness :
  check_fields 2025 ["5"; "-"; "99"; "888"] = Raise AssertionError
  /\ exists e,
       parse_leaderboard (fun _ => Samples.rank_and_score_page) 2025 None false
       = Raise e.
Proof.
  destruct (C1_newer_format_rows 2025 "5" ["-"; "99"; "888"] ltac:(lia))
    as [Hrow Hpage].
  split; [exact Hrow|].
  apply (Hpage (fun _ => Samples.rank_and_score_page) None false
           ("5 - 99 888" +:+ Text.nl) "5 - 99 888").
  - vm_compute. reflexivity.
  - vm_compute. reflexivity.
  - vm_compute. left.
  - vm_compute. reflexivity.
Defined.

(** C1 as stated fails: parsing the page whose table is the line
    ["5 - 99 888"] for 2025 does not yield a record for day 5, it
    raises. *)
Lemma C1_counterexample :
  parse_leaderboard (fun _ => Samples.rank_and_score_page) 2025 None false
  = Raise AssertionError
  /\ ~ exists day_to_scores,
         parse_leaderboard (fun _ => Samples.rank_and_score_page) 2025 None false
         = Ok day_to_scores
         /\ day_to_scores !! 5
            = Some {| time1 := None; rank1 := None; score1 := None;
                      time2 := None; rank2 := Some "99"; score2 := Some "888" |}.
Proof.
  assert (parse_leaderboard (fun _ => Samples.rank_and_score_page) 2025 None false
          = Raise AssertionError) as H by (vm_compute; reflexivity).
  split; [exact H|]. intros (m & Hm & _). rewrite H in Hm. discriminate.
Qed.

Lemma count_dash_to_None fields :
  length (omap id (dash_to_None <$> fields))
  = length (filter (fun t => t <> "-") fields).
Proof.
  induction fields as [|t fields IH]; [done|].
  rewrite filter_cons. cbn [fmap list_fmap omap list_omap].
  unfold dash_to_None at 1. destruct (String.eqb_spec t "-") as [->|Hne].
  - rewrite decide_False by (intros H; by apply H). apply IH.
  - rewrite decide_True by done. cbn. by rewrite <-IH.
Qed.

Lemma populated_DayScores_of scores :
  length scores = 3%nat \/ length scores = 6%nat ->
  populated (DayScores_of scores) = length (omap id scores).
Proof.
  intros [H|H].
  - by destruct scores as [|a [|b [|c [|? ?]]]].
  - by destruct scores as [|a [|b [|c [|d [|e [|f [|? ?]]]]]]].
Qed.

Lemma row_record_plain year runtime_data line d record :
  row_record year runtime_data false line = Ok (d, record) ->
  exists day fields,
    tokens_of line = day :: fields
    /\ Text.int day = Some d
    /\ (length (normalize year (dash_to_None <$> fields)) = 3%nat
        \/ length (normalize year (dash_to_None <$> fields)) = 6%nat)
    /\ record = DayScores_of (normalize year (dash_to_None <$> fields)).
Proof.
  unfold row_record, split_line, check_fields.
  destruct (tokens_of line) as [|day fields] eqn:Htok; [done|].
  destruct (bool_decide _) eqn:Hlen; [|done].
  apply bool_decide_eq_true in Hlen.
  unfold mbind, result_bind, int_or_raise.
  destruct (Text.int day) as [z|] eqn:Hint; [|done].
  intros [= <- <-]. by exists day, fields.
Qed.

(** C8, as the code has it.  The assertion counts the fields of a
    line, absent ones included, not the populated ones.  Every record
    produced without runtime substitution comes from a line of the
    table whose first token reads as the day, and its populated leaf
    fields are exactly the remaining tokens that are not the dash.  A
    line has 3 or 6 such tokens before 2025 and 1 or 2 from 2025 on,
    so the number of populated fields is 3 or 6 for a line without
    dashes before 2025, and at most 2 from 2025 on. *)
Theorem C8_populated_fields get_leaderboard year runtime_data day_to_scores d record :
  parse_leaderboard get_leaderboard year runtime_data false = Ok day_to_scores ->
  day_to_scores !! d = Some record ->
  exists body line day fields,
    first_match year (get_leaderboard year) = Some body
    /\ line ∈ table_rows body
    /\ tokens_of line = day :: fields
    /\ Text.int day = Some d
    /\ record = DayScores_of (normalize year (dash_to_None <$> fields))
    /\ populated record = length (filter (fun t => t <> "-") fields)
    /\ (if decide (year < 2025)
        then (length fields = 3%nat \/ length fields = 6%nat)
             /\ ("-" ∉ fields -> populated record = 3%nat \/ populated record = 6%nat)
        else (length fields = 1%nat \/ length fields = 2%nat)
             /\ (populated record <= 2)%nat
             /\ rank1 record = None /\ score1 record = None
             /\ rank2 record = None /\ score2 record = None).
Proof.
  unfold parse_leaderboard. cbn [andb].
  destruct (Text.contains _ _); [by intros [= <-]|].
  destruct (first_match _ _) as [body|] eqn:Hbody; [|done].
  intros Hrun Hd.
  destruct (parse_rows_inv _ _ _ _ _ _ _ _ Hrun Hd) as [H|(line & Hline & Hrec)];
    [by rewrite lookup_empty in H|].
  apply row_record_plain in Hrec as (day & fields & Htok & Hint & Hlen & ->).
  exists body, line, day, fields. do 5 (split; [done|]).
  destruct (decide (year < 2025)) as [Hold|Hnew].
  - assert (normalize year (dash_to_None <$> fields) = dash_to_None <$> fields) as Hn.
    { unfold normalize.
      by replace (2025 <=? year) with false by (symmetry; apply Z.leb_gt; lia). }
    rewrite Hn in Hlen |- *.
    rewrite populated_DayScores_of, count_dash_to_None by done.
    rewrite length_fmap in Hlen. split; [done|]. split; [done|].
    intros Hnodash.
    assert (filter (fun t => t <> "-") fields = fields) as ->; [|done].
    clear -Hnodash. induction fields as [|t fields IH]; [done|].
    rewrite filter_cons, decide_True.
    + f_equal. apply IH. intros H. apply Hnodash. by right.
    + intros ->. apply Hnodash. left.
  - pose proof (check_fields_newer year day fields ltac:(lia)) as Hcf.
    unfold check_fields in Hcf. rewrite bool_decide_eq_true_2 in Hcf by done.
    destruct fields as [|t1 [|t2 [|t3 rest]]]; try done.
    + change (dash_to_None <$> [t1]) with [dash_to_None t1] in *.
      injection Hcf as ->. rewrite filter_cons, filter_nil.
      unfold dash_to_None. destruct (String.eqb_spec t1 "-") as [->|Hne].
      * rewrite decide_False by (intros H; by apply H). cbn. repeat split; auto.
      * rewrite decide_True by done. cbn. repeat split; auto.
    + change (dash_to_None <$> [t1; t2])
        with [dash_to_None t1; dash_to_None t2] in *.
      injection Hcf as ->. rewrite !filter_cons, filter_nil.
      unfold dash_to_None.
      destruct (String.eqb_spec t1 "-") as [->|Hne1],
               (String.eqb_spec t2 "-") as [->|Hne2];
        repeat (rewrite decide_False by (intros H; by apply H));
        repeat (rewrite decide_True by done);
        cbn; repeat split; auto.
Qed.

(** ** The composed state *)

Section Composed.

Variable get_leaderboard : Z -> string.
Variable self : TileMaker.
Variable tracker : DataTracker.

#[local] Abbreviation compose :=
  (compose_solve_data get_leaderboard self (Some tracker)).
#[local] Abbreviation parse year :=
  (parse_leaderboard get_leaderboard year (Some tracker) (use_runtime_of self)).

(** The stars of a composed year: each day holds what the last
    language that ran this day decided, against the scores stored with
    the year. *)
Lemma composed_stars languages years sd calls year yd day :
  compose languages years = Ok (sd, calls) ->
  year_to_data sd !! year = Some yd ->
  day_to_stars yd !! day
  = decided self tracker (day_to_scores yd) year day
      <$> last (filter (fun language => day ∈ days_ran language year) languages).
Proof.
  intros Hrun Hyd. apply compose_pairs_inv in Hrun as [_ Hinv].
  specialize (Hinv year). rewrite Hyd in Hinv.
  destruct Hinv as (_ & Hin & -> & _ & -> & _).
  rewrite last_contributors_product; [done|].
  apply list_elem_of_fmap in Hin as ([l y] & -> & Hin).
  by apply elem_of_product in Hin as [_ ?].
Qed.

(** C2, as the code has it.  The loop assigns [day_to_stars[day] = stars]:
    folding in a language replaces the stored count of each day it ran
    by its own decision.  After composition the stored count of a day
    is therefore the decision (day-25 bonus included) of the last
    language, in processing order, that ran this day; it is not the
    maximum over the languages. *)
Theorem C2_last_language_decides languages years sd calls year yd day :
  compose languages years = Ok (sd, calls) ->
  year_to_data sd !! year = Some yd ->
  day_to_stars yd !! day
  = match last (filter (fun language => day ∈ days_ran language year) languages) with
    | Some language =>
        Some (day25_bonus day
                (_get_stars self (day_to_scores yd !! day)
                   (day_solution tracker language year day)))
    | None => None
    end.
Proof.
  intros Hrun Hyd. rewrite (composed_stars _ _ _ _ _ _ _ Hrun Hyd).
  by destruct (last _).
Qed.

(** C10.  The loop body stores 2 for day 25 when the decision is 1 and
    the decision itself in every other case; so does the composed
    state, for the language whose decision it holds. *)
Theorem C10_day25_bonus year day language acc scores :
  let stars := _get_stars self (scores !! day)
                 (day_solution tracker language year day) in
  let stored := if decide (day = 25 /\ stars = 1%nat) then 2%nat else stars in
  (fold_day self tracker language year scores acc day).1 !! day = Some stored
  /\ forall languages years sd calls yd,
       compose languages years = Ok (sd, calls) ->
       year_to_data sd !! year = Some yd ->
       scores = day_to_scores yd ->
       last (filter (fun l => day ∈ days_ran l year) languages) = Some language ->
       day_to_stars yd !! day = Some stored.
Proof.
  intros stars stored.
  assert (day25_bonus day stars = stored) as Hb.
  { unfold day25_bonus, stored. destruct (decide (day = 25 /\ stars = 1%nat)) as [[-> ->]|Hn].
    - done.
    - destruct (bool_decide (day = 25)) eqn:E1, (bool_decide (stars = 1%nat)) eqn:E2;
        try done.
      apply bool_decide_eq_true in E1, E2. tauto. }
  split.
  - cbn [fold_day fst]. by rewrite lookup_insert_eq, <-Hb.
  - intros languages years sd calls yd Hrun Hyd -> Hlast.
    rewrite (composed_stars _ _ _ _ _ _ _ Hrun Hyd), Hlast. cbn.
    unfold decided. by rewrite <-Hb.
Qed.

(** C4, as the code has it.  [parse_leaderboard] is called inside the
    loop over the (language, year) pairs: once per language for every
    listed year that the tracker knows, so the number of calls is the
    number of languages times the number of such years. *)
Theorem C4_one_parse_per_pair languages years sd calls :
  compose languages years = Ok (sd, calls) ->
  calls = (if is_leaderboard_needed self
           then languages ≫= fun _ => filter (fun y => has_year tracker y = true) years
           else [])
  /\ (is_leaderboard_needed self = true ->
      length calls
      = (length languages
         * length (filter (fun y => has_year tracker y = true) years))%nat).
Proof.
  intros Hrun. apply compose_pairs_inv in Hrun as [-> _].
  destruct (is_leaderboard_needed self); [|done].
  assert (filter (fun y => has_year tracker y = true) (product languages years).*2
          = languages ≫= fun _ => filter (fun y => has_year tracker y = true) years)
    as ->.
  { rewrite product_years. induction languages as [|l ls IH]; [done|].
    by rewrite !bind_cons, filter_app, IH. }
  split; [done|]. intros _.
  induction languages as [|l ls IH]; [done|].
  rewrite bind_cons, length_app, IH. simpl. lia.
Qed.

(** C7, as the code has it.  Nothing catches what [parse_leaderboard]
    raises: when the leaderboard of one listed year cannot be parsed,
    the whole composition raises and no year's state is returned. *)
Theorem C7_parse_error_aborts languages years language year :
  language ∈ languages -> year ∈ years ->
  has_year tracker year = true ->
  is_leaderboard_needed self = true ->
  succeeds (parse year) = false ->
  exists e, compose languages years = Raise e.
Proof.
  intros Hl Hy Hknown Hneed Hfail. apply succeeds_false.
  apply (for_each_raises _ _ _ (language, year)).
  - by apply elem_of_product.
  - intros st. by apply compose_step_fails.
Qed.

End Composed.

Section Permuted.

Variable get_leaderboard : Z -> string.
Variable self : TileMaker.
Variable tracker : DataTracker.

#[local] Abbreviation compose :=
  (compose_solve_data get_leaderboard self (Some tracker)).

Lemma contributors_Permutation pairs pairs' year day :
  pairs ≡ₚ pairs' -> contributors pairs year day ≡ₚ contributors pairs' year day.
Proof. intros H. unfold contributors. by rewrite H. Qed.

Lemma last_is_Some_Permutation {A} (l l' : list A) :
  l ≡ₚ l' -> is_Some (last l) <-> is_Some (last l').
Proof.
  intros H. rewrite !last_is_Some. split; intros Hne ->.
  - by apply Permutation_nil_r in H.
  - symmetry in H. by apply Permutation_nil_r in H.
Qed.

Lemma contributors_elem pairs year day language :
  language ∈ contributors pairs year day ->
  (language, year) ∈ pairs /\ day ∈ days_ran language year.
Proof.
  unfold contributors. intros ([l y] & -> & Hin)%list_elem_of_fmap.
  apply list_elem_of_filter in Hin as [[Hy Hd] Hin]. simpl in *. by subst.
Qed.

Lemma default_nonempty {A} (l : list A) : default [] (nonempty l) = l.
Proof. by destruct l. Qed.

Lemma decided_on_leaderboard scores year day language :
  count_as_solved_when self = OnLeaderboard ->
  decided self tracker scores year day language
  = day25_bonus day (leaderboard_stars (scores !! day)).
Proof. intros H. unfold decided, _get_stars. by rewrite H. Qed.

(** C3, as the code has it.  Since the last language that ran a day
    decides its stars, a permutation of the languages may change star
    counts and totals.  What it cannot change: whether composition
    succeeds, the years composed, the scores stored with a year, the
    days that hold a star count, and the members of each day's
    contributing-language list.  Star counts and totals are the same
    as well whenever the languages that ran a day agree on its
    decision, as they always do under [on_leaderboard]. *)
Theorem C3_permuted_languages languages languages' years sd calls :
  languages ≡ₚ languages' ->
  compose languages years = Ok (sd, calls) ->
  exists sd' calls',
    compose languages' years = Ok (sd', calls')
    /\ (forall year,
          is_Some (year_to_data sd' !! year) <-> is_Some (year_to_data sd !! year))
    /\ forall year yd yd',
         year_to_data sd !! year = Some yd ->
         year_to_data sd' !! year = Some yd' ->
         day_to_scores yd' = day_to_scores yd
         /\ (forall day,
               is_Some (day_to_stars yd' !! day) <-> is_Some (day_to_stars yd !! day))
         /\ (forall day,
               default [] (day_to_paths yd' !! day)
               ≡ₚ default [] (day_to_paths yd !! day))
         /\ ((forall day l l',
                l ∈ languages -> l' ∈ languages ->
                day ∈ days_ran l year -> day ∈ days_ran l' year ->
                decided self tracker (day_to_scores yd) year day l
                = decided self tracker (day_to_scores yd) year day l') ->
             day_to_stars yd' = day_to_stars yd
             /\ total_stars yd' = total_stars yd)
         /\ (count_as_solved_when self = OnLeaderboard ->
             day_to_stars yd' = day_to_stars yd
             /\ total_stars yd' = total_stars yd).
Proof.
  intros Hperm Hrun.
  pose proof (Permutation_product _ _ years Hperm) as Hpairs.
  apply compose_pairs_inv in Hrun as [_ Hinv].
  assert (succeeds (compose languages' years) = true) as Hok.
  { apply for_each_succeeds. intros pair st Hin.
    apply compose_step_succeeds. intros Hknown Hneed.
    rewrite <-Hpairs in Hin. specialize (Hinv pair.2).
    destruct (year_to_data sd !! pair.2) as [yd|].
    - destruct Hinv as (_ & _ & _ & Hb & _). by rewrite Hb.
    - rewrite (Hinv pair Hin eq_refl) in Hknown. done. }
  apply succeeds_true in Hok as [[sd' calls'] Hrun'].
  exists sd', calls'. split; [done|].
  apply compose_pairs_inv in Hrun' as [_ Hinv'].
  split.
  - intros year. specialize (Hinv year). specialize (Hinv' year).
    destruct (year_to_data sd !! year) as [yd|],
             (year_to_data sd' !! year) as [yd'|]; try done.
    + destruct Hinv as (Hk & Hin & _).
      apply list_elem_of_fmap in Hin as (pair & -> & Hin).
      rewrite Hpairs in Hin. rewrite (Hinv' pair Hin eq_refl) in Hk. done.
    + destruct Hinv' as (Hk & Hin & _).
      apply list_elem_of_fmap in Hin as (pair & -> & Hin).
      rewrite <-Hpairs in Hin. rewrite (Hinv pair Hin eq_refl) in Hk. done.
  - intros year yd yd' Hyd Hyd'.
    specialize (Hinv year). specialize (Hinv' year).
    rewrite Hyd in Hinv. rewrite Hyd' in Hinv'.
    destruct Hinv as (_ & _ & Hsc & _ & Hst & Hpa).
    destruct Hinv' as (_ & _ & Hsc' & _ & Hst' & Hpa').
    pose proof (fun day => contributors_Permutation _ _ year day Hpairs) as Hc.
    assert (forall day,
      is_Some (day_to_stars yd' !! day) <-> is_Some (day_to_stars yd !! day)) as Hdom.
    { intros day. rewrite Hst, Hst', !fmap_is_Some.
      symmetry. apply last_is_Some_Permutation, Hc. }
    split; [congruence|]. split; [done|]. split.
    + intros day. rewrite Hpa, Hpa', !default_nonempty. symmetry. apply Hc.
    + assert ((forall day l l',
                l ∈ languages -> l' ∈ languages ->
                day ∈ days_ran l year -> day ∈ days_ran l' year ->
                decided self tracker (day_to_scores yd) year day l
                = decided self tracker (day_to_scores yd) year day l') ->
              day_to_stars yd' = day_to_stars yd
              /\ total_stars yd' = total_stars yd) as Hagree.
      { intros Hsame.
        assert (day_to_stars yd' = day_to_stars yd) as Heq.
        { apply map_eq. intros day. specialize (Hdom day).
          rewrite Hst, Hst' in Hdom |- *. rewrite !fmap_is_Some in Hdom.
          destruct (last (contributors (product languages years) year day))
            as [l|] eqn:Hl,
            (last (contributors (product languages' years) year day))
            as [l'|] eqn:Hl'; cbn [fmap option_fmap option_map].
          - f_equal. rewrite <-Hsc. symmetry.
            apply last_Some_elem_of, contributors_elem in Hl as [Hl Hd].
            apply last_Some_elem_of, contributors_elem in Hl' as [Hl' Hd'].
            apply Hsame; try done.
            + by apply elem_of_product in Hl as [? _].
            + apply elem_of_product in Hl' as [Hl' _]. by rewrite Hperm.
          - destruct Hdom as [_ H]. by destruct H.
          - destruct Hdom as [H _]. by destruct H.
          - done. }
        split; [done|]. unfold total_stars. by rewrite Heq. }
      split; [exact Hagree|].
      intros Hrule. apply Hagree. intros day l l' _ _ _ _.
      by rewrite !decided_on_leaderboard.
Qed.

End Permuted.

(** ** The sample inputs, evaluated *)

Import Samples.

Example both_parts_parsed :
  parse_leaderboard (fun _ => both_parts_page) 2020 None false
  = Ok {[ 5 := {| time1 := Some "00:12:34"; rank1 := Some "123";
                  score1 := Some "456"; time2 := Some "01:02:03";
                  rank2 := Some "45"; score2 := Some "678" |} ]}.
Proof. vm_compute. reflexivity. Qed.

Example times_only_parsed :
  parse_leaderboard (fun _ => times_only_page) 2025 None false
  = Ok {[ 4 := {| time1 := Some "00:11:11"; rank1 := None; score1 := None;
                  time2 := Some "00:22:22"; rank2 := None; score2 := None |};
          5 := {| time1 := Some "00:12:34"; rank1 := None; score1 := None;
                  time2 := None; rank2 := None; score2 := None |} ]}.
Proof. vm_compute. reflexivity. Qed.

Example dashed_parsed :
  parse_leaderboard (fun _ => dashed_page) 2020 None false
  = Ok {[ 5 := {| time1 := Some "00:12:34"; rank1 := None;
                  score1 := Some "456"; time2 := None;
                  rank2 := None; score2 := None |} ]}.
Proof. vm_compute. reflexivity. Qed.

Example single_part_parsed :
  parse_leaderboard (fun _ => single_part_page) 2020 None false
  = Ok {[ 5 := {| time1 := Some "00:12:34"; rank1 := Some "123";
                  score1 := Some "456"; time2 := None;
                  rank2 := None; score2 := None |} ]}.
Proof. vm_compute. reflexivity. Qed.

(** With both parts on the line the runtime replaces the two times, and
    the entry missing for part 2 leaves its time absent. *)
Example both_parts_runtime :
  parse_leaderboard (fun _ => both_parts_page) 2020 (Some tracker) true
  = Ok {[ 5 := {| time1 := Some "1.500"; rank1 := Some "123";
                  score1 := Some "456"; time2 := None;
                  rank2 := Some "45"; score2 := Some "678" |} ]}.
Proof. vm_compute. reflexivity. Qed.

Example python_then_rust :
  compose_solve_data pages by_files (Some tracker) [python; rust] [2020]
  = Ok ({| year_to_data :=
             {[ 2020 := {| day_to_scores := ∅;
                           day_to_paths := {[ 2 := [python; rust] ]};
                           day_to_stars := {[ 2 := 1%nat ]} |} ]} |}, []).
Proof. vm_compute. reflexivity. Qed.

Example rust_then_python :
  compose_solve_data pages by_files (Some tracker) [rust; python] [2020]
  = Ok ({| year_to_data :=
             {[ 2020 := {| day_to_scores := ∅;
                           day_to_paths := {[ 2 := [rust; python] ]};
                           day_to_stars := {[ 2 := 2%nat ]} |} ]} |}, []).
Proof. vm_compute. reflexivity. Qed.

Example python_alone :
  compose_solve_data pages by_files (Some tracker) [python] [2020]
  = Ok ({| year_to_data :=
             {[ 2020 := {| day_to_scores := ∅;
                           day_to_paths := {[ 2 := [python] ]};
                           day_to_stars := {[ 2 := 2%nat ]} |} ]} |}, []).
Proof. vm_compute. reflexivity. Qed.

Example either_python_rust :
  exists scores,
    parse_leaderboard pages 2020 (Some tracker) false = Ok scores
    /\ compose_solve_data pages by_either (Some tracker) [python; rust] [2020]
       = Ok ({| year_to_data :=
                  {[ 2020 := {| day_to_scores := scores;
                                day_to_paths := {[ 2 := [python; rust] ]};
                                day_to_stars := {[ 2 := 1%nat ]} |} ]} |},
             [2020; 2020]).
Proof. eexists. split; vm_compute; reflexivity. Qed.

Example either_2020_only :
  succeeds (compose_solve_data pages by_either (Some tracker) [python] [2020]) = true.
Proof. vm_compute. reflexivity. Qed.

Example either_2020_2021 :
  compose_solve_data pages by_either (Some tracker) [python] [2020; 2021]
  = Raise AssertionError.
Proof. vm_compute. reflexivity. Qed.

Example go_alone :
  compose_solve_data pages by_files (Some tracker) [go] [2020]
  = Ok ({| year_to_data :=
             {[ 2020 := {| day_to_scores := ∅;
                           day_to_paths := {[ 25 := [go] ]};
                           day_to_stars := {[ 25 := 2%nat ]} |} ]} |}, []).
Proof. vm_compute. reflexivity. Qed.

(** ** Runtime substitution *)

Lemma substitute_runtime_three year tracker day t r s :
  substitute_runtime year (Some tracker) day [t; r; s]
  = match Text.int day with
    | Some _ => Raise IndexError
    | None => Raise ValueError
    end.
Proof.
  unfold substitute_runtime, int_or_raise. by destruct (Text.int day).
Qed.

Lemma substitute_runtime_six year tracker day d t1 r1 s1 t2 r2 s2 :
  Text.int day = Some d ->
  substitute_runtime year (Some tracker) day [t1; r1; s1; t2; r2; s2]
  = Ok [runtime_text tracker year d 1; r1; s1;
        runtime_text tracker year d 2; r2; s2].
Proof.
  intros H. unfold substitute_runtime, int_or_raise. by rewrite H.
Qed.

(** C6: the code misses the line that holds part 1 only.  On the page
    whose table is the line of day 5 with one triple, parsing with a
    runtime lookup raises [IndexError] at the assignment to [scores[3]],
    whether the runtime of part 2 is found or not; on any line of three
    fields the substitution raises.  The same page parses without the
    lookup, and a line of six fields takes both substitutions. *)
Theorem C6_runtime_single_part :
  parse_leaderboard (fun _ => single_part_page) 2020 (Some tracker) true
  = Raise IndexError
  /\ forall year tracker day t r s,
       substitute_runtime year (Some tracker) day [t; r; s]
       = match Text.int day with
         | Some _ => Raise IndexError
         | None => Raise ValueError
         end.
Proof.
  split; [vm_compute; reflexivity|].
  intros. apply substitute_runtime_three.
Qed.

(** ** The year heading and its tiles *)

Lemma handle_year_missing_entry self year year_data day :
  create_all_days self = true ->
  1 <= day <= 25 ->
  day_to_stars year_data !! day = None ->
  exists e, handle_year self year year_data = Raise e.
Proof.
  intros Hall Hday Hnone. apply succeeds_false. unfold handle_year.
  rewrite Hall.
  match goal with
  | |- succeeds (mbind _ ?m) = false =>
      assert (succeeds m = false) as Hloop; [|by destruct m]
  end.
  apply (for_each_raises _ _ _ day).
  - apply elem_of_seqZ. lia.
  - intros calls. by rewrite Hnone.
Qed.

(** C9: the code misses the day without a star entry.  [python] ran
    day 2 of 2020 only; the composed year renders days 1 to 2, and the
    lookup [day_to_stars[1]] raises [KeyError], with or without
    [create_all_days]. *)
Theorem C9_missing_star_entry :
  exists sd calls yd,
    compose_solve_data pages by_files (Some tracker) [python] [2020]
    = Ok (sd, calls)
    /\ year_to_data sd !! 2020 = Some yd
    /\ day_to_stars yd !! 1 = None
    /\ day_to_stars yd !! 2 = Some 2%nat
    /\ handle_year by_files 2020 yd = Raise KeyError
    /\ handle_year all_days 2020 yd = Raise KeyError.
Proof.
  eexists _, _, _. split; [exact python_alone|]. split; [reflexivity|].
  by vm_compute.
Qed.

(** ** Witnesses and counterexamples *)

Lemma C2_last_language_decides_witness :
  exists sd calls yd,
    compose_solve_data pages by_files (Some tracker) [python; rust] [2020]
    = Ok (sd, calls)
    /\ year_to_data sd !! 2020 = Some yd
    /\ day_to_stars yd !! 2 = Some 1%nat.
Proof.
  eexists _, _, _. split; [exact python_then_rust|]. split; [reflexivity|].
  rewrite (C2_last_language_decides pages by_files tracker [python; rust] [2020]
             _ _ 2020 _ 2 python_then_rust eq_refl).
  vm_compute. reflexivity.
Defined.

(** C2 as stated fails: with two files [python] alone gives day 2 of
    2020 two stars; folding in [rust], which has one file, lowers the
    stored count to one, which is not the maximum of 2 and 1. *)
Lemma C2_counterexample :
  exists sd1 sd2 calls1 calls2,
    compose_solve_data pages by_files (Some tracker) [python] [2020]
    = Ok (sd1, calls1)
    /\ compose_solve_data pages by_files (Some tracker) [python; rust] [2020]
       = Ok (sd2, calls2)
    /\ stars_at sd1 2020 2 = Some 2%nat
    /\ stars_at sd2 2020 2 = Some 1%nat
    /\ _get_stars by_files None (day_solution tracker python 2020 2) = 2%nat
    /\ _get_stars by_files None (day_solution tracker rust 2020 2) = 1%nat.
Proof.
  eexists _, _, _, _. split; [exact python_alone|].
  split; [exact python_then_rust|]. by vm_compute.
Qed.

Lemma C3_permuted_languages_witness :
  exists sd' calls',
    compose_solve_data pages by_files (Some tracker) [rust; python] [2020]
    = Ok (sd', calls')
    /\ forall yd',
         year_to_data sd' !! 2020 = Some yd' ->
         default [] (day_to_paths yd' !! 2) ≡ₚ [python; rust].
Proof.
  destruct (C3_permuted_languages pages by_files tracker
              [python; rust] [rust; python] [2020] _ _
              (perm_swap rust python []) python_then_rust)
    as (sd' & calls' & Hrun & _ & Hyear).
  exists sd', calls'. split; [exact Hrun|]. intros yd' Hyd'.
  destruct (Hyear 2020 _ yd' eq_refl Hyd') as (_ & _ & Hpaths & _ & _).
  exact (Hpaths 2).
Defined.

(** C3 as stated fails: the two orders of [python] and [rust] give day
    2 of 2020 one star and two stars. *)
Lemma C3_counterexample :
  [python; rust] ≡ₚ [rust; python]
  /\ exists sd sd' calls calls',
       compose_solve_data pages by_files (Some tracker) [python; rust] [2020]
       = Ok (sd, calls)
       /\ compose_solve_data pages by_files (Some tracker) [rust; python] [2020]
          = Ok (sd', calls')
       /\ stars_at sd 2020 2 = Some 1%nat
       /\ stars_at sd' 2020 2 = Some 2%nat
       /\ (forall yd yd',
             year_to_data sd !! 2020 = Some yd ->
             year_to_data sd' !! 2020 = Some yd' ->
             total_stars yd <> total_stars yd').
Proof.
  split; [apply perm_swap|].
  eexists _, _, _, _. split; [exact python_then_rust|].
  split; [exact rust_then_python|]. split; [by vm_compute|].
  split; [by vm_compute|].
  intros yd yd' [= <-] [= <-]. by vm_compute.
Qed.

Lemma C4_one_parse_per_pair_witness :
  exists sd calls,
    compose_solve_data pages by_either (Some tracker) [python; rust] [2020]
    = Ok (sd, calls)
    /\ length calls = 2%nat.
Proof.
  destruct either_python_rust as (scores & _ & Hrun).
  eexists _, _. split; [exact Hrun|].
  destruct (C4_one_parse_per_pair pages by_either tracker _ _ _ _ Hrun) as [_ H].
  rewrite (H eq_refl). vm_compute. reflexivity.
Defined.

(** C4 as stated fails: with two languages the leaderboard of 2020 is
    parsed twice in one composition. *)
Lemma C4_counterexample :
  exists sd,
    compose_solve_data pages by_either (Some tracker) [python; rust] [2020]
    = Ok (sd, [2020; 2020]).
Proof. destruct either_python_rust as (scores & _ & Hrun). eauto. Qed.

Lemma C7_parse_error_aborts_witness :
  exists e,
    compose_solve_data pages by_either (Some tracker) [python] [2020; 2021]
    = Raise e.
Proof.
  apply (C7_parse_error_aborts pages by_either tracker [python] [2020; 2021]
           python 2021).
  - left.
  - right. left.
  - vm_compute. reflexivity.
  - vm_compute. reflexivity.
  - vm_compute. reflexivity.
Defined.

(** C7 as stated fails: 2020 composes on its own, but together with
    2021, whose page holds no table, the composition raises and returns
    nothing, the state of 2020 included. *)
Lemma C7_counterexample :
  succeeds (compose_solve_data pages by_either (Some tracker) [python] [2020]) = true
  /\ compose_solve_data pages by_either (Some tracker) [python] [2020; 2021]
     = Raise AssertionError
  /\ ~ exists sd calls,
         compose_solve_data pages by_either (Some tracker) [python] [2020; 2021]
         = Ok (sd, calls)
         /\ is_Some (year_to_data sd !! 2020).
Proof.
  split; [exact either_2020_only|]. split; [exact either_2020_2021|].
  intros (sd & calls & H & _). rewrite either_2020_2021 in H. discriminate.
Qed.

Lemma C8_populated_fields_witness :
  exists record body line day fields,
    first_match 2025 times_only_page = Some body
    /\ line ∈ table_rows body
    /\ tokens_of line = day :: fields
    /\ Text.int day = Some 5
    /\ record = DayScores_of (normalize 2025 (dash_to_None <$> fields))
    /\ populated record = length (filter (fun t => t <> "-") fields)
    /\ (populated record <= 2)%nat.
Proof.
  exists {| time1 := Some "00:12:34"; rank1 := None; score1 := None;
            time2 := None; rank2 := None; score2 := None |}.
  destruct (C8_populated_fields (fun _ => times_only_page) 2025 None _ 5 _
              times_only_parsed eq_refl)
    as (body & line & day & fields & H1 & H2 & H3 & H4 & H5 & H6 & H7).
  exists body, line, day, fields.
  destruct (decide (2025 < 2025)) as [Hlt|_]; [lia|].
  destruct H7 as (_ & H7 & _). repeat split; assumption.
Defined.

(** C8 as stated fails: a record of the newer format has one populated
    field, and a dash in one column of an older line leaves two. *)
Lemma C8_counterexample :
  (exists day_to_scores record,
     parse_leaderboard (fun _ => times_only_page) 2025 None false = Ok day_to_scores
     /\ day_to_scores !! 5 = Some record
     /\ populated record = 1%nat)
  /\ (exists day_to_scores record,
        parse_leaderboard (fun _ => dashed_page) 2020 None false = Ok day_to_scores
        /\ day_to_scores !! 5 = Some record
        /\ populated record = 2%nat).
Proof.
  split.
  - eexists _, _. split; [exact times_only_parsed|]. split; reflexivity.
  - eexists _, _. split; [exact dashed_parsed|]. split; reflexivity.
Qed.

Lemma C10_day25_bonus_witness :
  exists sd calls yd,
    compose_solve_data pages by_files (Some tracker) [go] [2020] = Ok (sd, calls)
    /\ year_to_data sd !! 2020 = Some yd
    /\ _get_stars by_files (day_to_scores yd !! 25) (day_solution tracker go 2020 25)
       = 1%nat
    /\ day_to_stars yd !! 25 = Some 2%nat.
Proof.
  eexists _, _, _. split; [exact go_alone|]. split; [reflexivity|].
  split; [reflexivity|].
  destruct (C10_day25_bonus pages by_files tracker 2020 25 go (∅, ∅) ∅)
    as [_ H].
  rewrite (H _ _ _ _ _ go_alone eq_refl eq_refl eq_refl).
  vm_compute. reflexivity.
Defined.

(** * Further properties of the code *)

(** ** Tokens of a line *)

Lemma rstrip_idemp s : Text.rstrip (Text.rstrip s) = Text.rstrip s.
Proof.
  induction s as [|c s IH]; [done|]. cbn [Text.rstrip].
  destruct (Text.rstrip s) as [|c' r] eqn:E.
  - destruct (Text.is_space c) eqn:Hc; [done|]. cbn. by rewrite Hc.
  - cbn [Text.rstrip]. cbn [Text.rstrip] in IH. by rewrite IH.
Qed.

Lemma rstrip_fixed_inv c s :
  Text.rstrip (String c s) = String c s ->
  Text.rstrip s = s /\ (s = "" -> Text.is_space c = false).
Proof.
  cbn [Text.rstrip]. destruct (Text.rstrip s) as [|c' r] eqn:E.
  - destruct (Text.is_space c) eqn:Hc; [done|]. intros [= <-]. done.
  - intros [= <-]. done.
Qed.

(** The tokens after the first are never empty when the text does not
    end in whitespace; after a whitespace run the first is not either. *)
Lemma re_split_spaces_nonempty s :
  Text.rstrip s = s ->
  (forall x, x ∈ tail (Text.re_split_spaces false s) -> x <> "")
  /\ (s <> "" -> forall x, x ∈ Text.re_split_spaces true s -> x <> "").
Proof.
  induction s as [|c s IH]; intros Hfix.
  - split; [|done]. intros x H. by apply elem_of_nil in H.
  - apply rstrip_fixed_inv in Hfix as [Hfix Hlast].
    destruct (IH Hfix) as [IHt IHa]. cbn [Text.re_split_spaces].
    destruct (Text.is_space c) eqn:Hc.
    + assert (s <> "") as Hne
        by (intros ->; specialize (Hlast eq_refl); congruence).
      split; [cbn [tail]|intros _]; by apply IHa.
    + assert (forall x,
        x ∈ tail (match Text.re_split_spaces false s with
                  | h :: t => String c h :: t
                  | [] => [String c ""]
                  end) -> x <> "") as Htail.
      { intros x. destruct (Text.re_split_spaces false s) as [|h t].
        - intros H. by apply elem_of_nil in H.
        - apply IHt. }
      split; [exact Htail|]. intros _ x Hx.
      destruct (Text.re_split_spaces false s) as [|h t].
      * by apply list_elem_of_singleton in Hx as ->.
      * apply elem_of_cons in Hx as [->|Hx]; [done|]. by apply Htail.
Qed.

Lemma tokens_of_fields_nonempty line day fields :
  tokens_of line = day :: fields -> forall t, t ∈ fields -> t <> "".
Proof.
  unfold tokens_of, Text.strip. intros Htok t Ht.
  destruct (re_split_spaces_nonempty (Text.rstrip (Text.lstrip line))
              (rstrip_idemp _)) as [H _].
  apply H. by rewrite Htok.
Qed.

(** ** The table as a whole *)

Lemma split_char_nonempty sep s : Text.split_char sep s <> [].
Proof.
  destruct s as [|c s]; [done|]. cbn [Text.split_char].
  destruct (Ascii.eqb c sep); [done|]. by destruct (Text.split_char sep s).
Qed.

Lemma parse_rows_lookup year runtime_data use_runtime rows m0 m d :
  for_each (parse_row year runtime_data use_runtime) m0 rows = Ok m ->
  m !! d = match last (omap (record_for year runtime_data use_runtime d) rows) with
           | Some record => Some record
           | None => m0 !! d
           end.
Proof.
  revert m0. induction rows as [|line rows IH]; intros m0 Hrun.
  - by injection Hrun as <-.
  - cbn [for_each] in Hrun. unfold mbind at 1, result_bind at 1 in Hrun.
    destruct (parse_row _ _ _ m0 line) as [m1|] eqn:Hrow; [|done].
    rewrite (IH _ Hrun). cbn [omap list_omap]. unfold record_for at 2.
    unfold parse_row in Hrow.
    destruct (row_record _ _ _ line) as [[d1 r1]|]; [|done].
    injection Hrow as <-. destruct (decide (d1 = d)) as [->|Hne].
    + rewrite last_cons, lookup_insert_eq. by destruct (last _).
    + by rewrite lookup_insert_ne.
Qed.

Lemma parse_rows_nonempty year runtime_data use_runtime line rows m0 m :
  for_each (parse_row year runtime_data use_runtime) m0 (line :: rows) = Ok m ->
  m <> ∅.
Proof.
  intros Hrun Hm. pose proof Hrun as Hrun'.
  cbn [for_each] in Hrun. unfold mbind at 1, result_bind at 1 in Hrun.
  destruct (parse_row _ _ _ m0 line) as [m1|] eqn:Hrow; [|done].
  unfold parse_row in Hrow.
  destruct (row_record _ _ _ line) as [[d1 r1]|] eqn:Hrec; [|done].
  pose proof (parse_rows_lookup _ _ _ _ _ _ d1 Hrun') as Hd.
  rewrite Hm, lookup_empty in Hd. cbn [omap list_omap] in Hd.
  unfold record_for at 1 in Hd. rewrite Hrec, decide_True in Hd by done.
  rewrite last_cons in Hd. by destruct (last _).
Qed.

Lemma parse_leaderboard_table get_leaderboard year runtime_data use_runtime body :
  (use_runtime = true -> runtime_data <> None) ->
  Text.contains no_stars (get_leaderboard year) = false ->
  first_match year (get_leaderboard year) = Some body ->
  parse_leaderboard get_leaderboard year runtime_data use_runtime
  = for_each (parse_row year runtime_data use_runtime) ∅ (table_rows body).
Proof.
  intros Hrt Hstars Hbody. unfold parse_leaderboard. rewrite Hstars, Hbody.
  destruct use_runtime; [|done]. cbn [andb].
  by rewrite bool_decide_eq_false_2 by auto.
Qed.

(** X1.  An empty snapshot comes from the sentinel and from nothing
    else: a page on which a table is found either raises or yields at
    least one day. *)
Theorem X1_empty_iff_no_stars get_leaderboard year runtime_data use_runtime :
  (use_runtime = true -> runtime_data <> None) ->
  parse_leaderboard get_leaderboard year runtime_data use_runtime = Ok ∅
  <-> Text.contains no_stars (get_leaderboard year) = true.
Proof.
  intros Hrt. split.
  - destruct (Text.contains no_stars (get_leaderboard year)) eqn:Hstars; [done|].
    destruct (first_match year (get_leaderboard year)) as [body|] eqn:Hbody.
    + rewrite (parse_leaderboard_table _ _ _ _ body) by done.
      unfold table_rows.
      pose proof (split_char_nonempty (ascii_of_nat 10) (Text.strip body)) as Hne.
      destruct (Text.split_char _ _) as [|line rows]; [done|].
      intros Hrun. by apply parse_rows_nonempty in Hrun.
    + unfold parse_leaderboard. rewrite Hstars, Hbody.
      by destruct (use_runtime && _).
  - intros Hstars. unfold parse_leaderboard. rewrite Hstars.
    destruct use_runtime; [|done]. cbn [andb].
    by rewrite bool_decide_eq_false_2 by auto.
Qed.

Lemma X1_empty_iff_no_stars_witness :
  parse_leaderboard (fun _ => MoreSamples.fresh_account_page) 2021 None false = Ok ∅.
Proof.
  apply (X1_empty_iff_no_stars (fun _ => MoreSamples.fresh_account_page) 2021 None false).
  - discriminate.
  - vm_compute. reflexivity.
Defined.

(** X2.  When two lines of the table read as the same day, the later
    one replaces the earlier: the record of a day is that of the last
    line that stores one under it, and a day that no line stores has
    none. *)
Theorem X2_last_row_wins get_leaderboard year runtime_data use_runtime body m d :
  Text.contains no_stars (get_leaderboard year) = false ->
  first_match year (get_leaderboard year) = Some body ->
  parse_leaderboard get_leaderboard year runtime_data use_runtime = Ok m ->
  m !! d = last (omap (record_for year runtime_data use_runtime d) (table_rows body)).
Proof.
  intros Hstars Hbody Hrun.
  assert (use_runtime = true -> runtime_data <> None) as Hrt.
  { intros -> ->. unfold parse_leaderboard in Hrun. cbn in Hrun. done. }
  rewrite (parse_leaderboard_table _ _ _ _ body) in Hrun by done.
  rewrite (parse_rows_lookup _ _ _ _ _ _ d Hrun), lookup_empty.
  by destruct (last _).
Qed.

Lemma X2_last_row_wins_witness :
  exists m,
    parse_leaderboard (fun _ => MoreSamples.repeated_day_page) 2020 None false = Ok m
    /\ m !! 5 = Some {| time1 := Some "00:30:00"; rank1 := Some "900";
                        score1 := Some "0"; time2 := None; rank2 := None;
                        score2 := None |}.
Proof.
  destruct (parse_leaderboard (fun _ => MoreSamples.repeated_day_page) 2020 None false)
    as [m|e] eqn:Hrun; [|by vm_compute in Hrun].
  exists m. split; [done|].
  rewrite (X2_last_row_wins (fun _ => MoreSamples.repeated_day_page) 2020 None false
             MoreSamples.repeated_day_body m 5); [by vm_compute| |by vm_compute|done].
  by vm_compute.
Defined.

(** ** One row *)

(** X3.  Before 2025 the fields of a line are taken by position: three
    fields fill part 1 and leave part 2 absent, six fill both parts, a
    dash in any position is absent on its own, and every other number
    of fields, none included, is rejected by the assertion. *)
Theorem X3_legacy_row year runtime_data line day n fields :
  year < 2025 ->
  tokens_of line = day :: fields ->
  Text.int day = Some n ->
  row_record year runtime_data false line
  = match fields with
    | [t1; r1; s1] =>
        Ok (n, {| time1 := dash_to_None t1; rank1 := dash_to_None r1;
                  score1 := dash_to_None s1;
                  time2 := None; rank2 := None; score2 := None |})
    | [t1; r1; s1; t2; r2; s2] =>
        Ok (n, {| time1 := dash_to_None t1; rank1 := dash_to_None r1;
                  score1 := dash_to_None s1;
                  time2 := dash_to_None t2; rank2 := dash_to_None r2;
                  score2 := dash_to_None s2 |})
    | _ => Raise AssertionError
    end.
Proof.
  intros Hy Htok Hint. unfold row_record, split_line. rewrite Htok.
  rewrite check_fields_older by done.
  destruct fields as [|t1 [|r1 [|s1 [|t2 [|r2 [|s2 [|? ?]]]]]]].
  all: try (rewrite bool_decide_eq_false_2 by (cbn [length]; lia); done).
  all: rewrite bool_decide_eq_true_2 by (cbn [length]; lia).
  all: unfold mbind, result_bind, int_or_raise; by rewrite Hint.
Qed.

Lemma X3_legacy_row_witness :
  row_record 2020 None false "  5   00:12:34    123    456"
  = Ok (5, {| time1 := Some "00:12:34"; rank1 := Some "123";
              score1 := Some "456";
              time2 := None; rank2 := None; score2 := None |})
  /\ row_record 2020 None false "  5   00:12:34    123" = Raise AssertionError
  /\ row_record 2020 None false "  5" = Raise AssertionError.
Proof.
  split; [|split].
  - apply (X3_legacy_row 2020 None _ "5" 5 ["00:12:34"; "123"; "456"]);
      [lia|vm_compute; reflexivity|vm_compute; reflexivity].
  - apply (X3_legacy_row 2020 None _ "5" 5 ["00:12:34"; "123"]);
      [lia|vm_compute; reflexivity|vm_compute; reflexivity].
  - apply (X3_legacy_row 2020 None _ "5" 5 []);
      [lia|vm_compute; reflexivity|vm_compute; reflexivity].
Defined.

Lemma row_record_inv year runtime_data use_runtime line d record :
  row_record year runtime_data use_runtime line = Ok (d, record) ->
  exists day fields scores,
    tokens_of line = day :: fields
    /\ Text.int day = Some d
    /\ check_fields year (day :: fields)
       = Ok (day, normalize year (dash_to_None <$> fields))
    /\ record = DayScores_of scores
    /\ if use_runtime
       then exists tracker,
              runtime_data = Some tracker
              /\ length (normalize year (dash_to_None <$> fields)) = 6%nat
              /\ scores = <[3%nat := runtime_text tracker year d 2]>
                            (<[0%nat := runtime_text tracker year d 1]>
                               (normalize year (dash_to_None <$> fields)))
       else scores = normalize year (dash_to_None <$> fields).
Proof.
  unfold row_record, split_line.
  destruct (tokens_of line) as [|day fields] eqn:Htok; [done|].
  destruct (check_fields year (day :: fields)) as [[day' scores]|] eqn:Hcf; [|done].
  assert (day' = day /\ scores = normalize year (dash_to_None <$> fields)
          /\ (length scores = 3%nat \/ length scores = 6%nat)) as (-> & -> & Hlen).
  { unfold check_fields in Hcf. destruct (bool_decide _) eqn:Hb; [|done].
    apply bool_decide_eq_true in Hb. by injection Hcf as <- <-. }
  unfold mbind at 1, result_bind at 1.
  destruct use_runtime.
  - unfold substitute_runtime. destruct runtime_data as [tracker|]; [|done].
    unfold int_or_raise. destruct (Text.int day) as [z|] eqn:Hint; [|done].
    unfold mbind, result_bind, set_item.
    destruct (0 <? _)%nat; [|done]. rewrite length_insert.
    destruct (3 <? _)%nat eqn:H3; [|done].
    apply Nat.ltb_lt in H3. intros [= <- <-].
    exists day, fields. eexists. repeat split; try done.
    exists tracker. repeat split; try done. lia.
  - unfold mbind, result_bind, int_or_raise.
    destruct (Text.int day) as [z|] eqn:Hint; [|done].
    intros [= <- <-]. exists day, fields. eexists. by repeat split.
Qed.

(** X4.  With runtime substitution every record of a parse that
    succeeds has its two times from the lookup, absent where the lookup
    has no entry, whatever times the page shows; its ranks and scores
    are those of the line, which has six fields. *)
Theorem X4_runtime_records get_leaderboard year tracker m d record :
  parse_leaderboard get_leaderboard year (Some tracker) true = Ok m ->
  m !! d = Some record ->
  time1 record = runtime_text tracker year d 1
  /\ time2 record = runtime_text tracker year d 2
  /\ exists body line day fields,
       first_match year (get_leaderboard year) = Some body
       /\ line ∈ table_rows body
       /\ tokens_of line = day :: fields
       /\ Text.int day = Some d
       /\ length (normalize year (dash_to_None <$> fields)) = 6%nat
       /\ rank1 record = mjoin (normalize year (dash_to_None <$> fields) !! 1%nat)
       /\ score1 record = mjoin (normalize year (dash_to_None <$> fields) !! 2%nat)
       /\ rank2 record = mjoin (normalize year (dash_to_None <$> fields) !! 4%nat)
       /\ score2 record = mjoin (normalize year (dash_to_None <$> fields) !! 5%nat).
Proof.
  unfold parse_leaderboard. cbn.
  destruct (Text.contains _ _); [by intros [= <-]|].
  destruct (first_match _ _) as [body|] eqn:Hbody; [|done].
  intros Hrun Hd.
  destruct (parse_rows_inv _ _ _ _ _ _ _ _ Hrun Hd) as [H|(line & Hline & Hrec)];
    [by rewrite lookup_empty in H|].
  apply row_record_inv in Hrec
    as (day & fields & scores & Htok & Hint & _ & -> & tr & [= <-] & Hlen & ->).
  destruct (normalize year (dash_to_None <$> fields))
    as [|a [|b [|c [|d' [|e [|f [|? ?]]]]]]] eqn:Hn; try done.
  split; [done|]. split; [done|].
  exists body, line, day, fields. rewrite Hn. by repeat split.
Qed.

Lemma X4_runtime_records_witness :
  exists m record,
    parse_leaderboard (fun _ => Samples.both_parts_page) 2020
      (Some Samples.tracker) true = Ok m
    /\ m !! 5 = Some record
    /\ time1 record = Some "1.500" /\ time2 record = None.
Proof.
  eexists _, _. split; [exact both_parts_runtime|]. split; [reflexivity|].
  destruct (X4_runtime_records _ _ _ _ 5 _ both_parts_runtime eq_refl)
    as (H1 & H2 & _).
  rewrite H1, H2. split; reflexivity.
Defined.

(** X5.  A line that has the right number of fields but whose first
    token is not an integer, such as a heading left inside the region,
    raises [ValueError], and the page that holds it does not parse. *)
Theorem X5_day_not_a_number get_leaderboard year runtime_data use_runtime
    body line day scores :
  (use_runtime = true -> runtime_data <> None) ->
  Text.contains no_stars (get_leaderboard year) = false ->
  first_match year (get_leaderboard year) = Some body ->
  line ∈ table_rows body ->
  split_line year line = Ok (day, scores) ->
  Text.int day = None ->
  row_record year runtime_data use_runtime line = Raise ValueError
  /\ exists e,
       parse_leaderboard get_leaderboard year runtime_data use_runtime = Raise e.
Proof.
  intros Hrt Hstars Hbody Hline Hsplit Hint.
  assert (row_record year runtime_data use_runtime line = Raise ValueError) as Hrow.
  { unfold row_record. rewrite Hsplit. unfold mbind at 1, result_bind at 1.
    destruct use_runtime.
    - destruct runtime_data as [tracker|]; [|by destruct Hrt].
      unfold substitute_runtime, int_or_raise. by rewrite Hint.
    - unfold mbind, result_bind, int_or_raise. by rewrite Hint. }
  split; [done|]. apply succeeds_false.
  rewrite (parse_leaderboard_table _ _ _ _ body) by done.
  apply (for_each_raises _ _ _ line Hline). intros m.
  unfold parse_row. by rewrite Hrow.
Qed.

Lemma X5_day_not_a_number_witness :
  row_record 2020 None false "Day       Time   Rank  Score" = Raise ValueError
  /\ exists e,
       parse_leaderboard (fun _ => MoreSamples.heading_inside_page) 2020 None false
       = Raise e.
Proof.
  apply (X5_day_not_a_number (fun _ => MoreSamples.heading_inside_page) 2020 None
           false MoreSamples.heading_inside_body _ "Day" [Some "Time"; Some "Rank"; Some "Score"]).
  - discriminate.
  - vm_compute. reflexivity.
  - vm_compute. reflexivity.
  - vm_compute. left.
  - vm_compute. reflexivity.
  - vm_compute. reflexivity.
Defined.

(** X6.  A region that holds nothing but whitespace raises the
    assertion of line 48 for every year: its only line has no fields. *)
Theorem X6_empty_region get_leaderboard year runtime_data use_runtime body :
  (use_runtime = true -> runtime_data <> None) ->
  Text.contains no_stars (get_leaderboard year) = false ->
  first_match year (get_leaderboard year) = Some body ->
  Text.strip body = "" ->
  parse_leaderboard get_leaderboard year runtime_data use_runtime
  = Raise AssertionError.
Proof.
  intros Hrt Hstars Hbody Hempty.
  rewrite (parse_leaderboard_table _ _ _ _ body) by done.
  unfold table_rows. rewrite Hempty. cbn [Text.split_char for_each].
  unfold parse_row, row_record, split_line.
  change (tokens_of "") with [""]. unfold check_fields, normalize.
  by destruct (2025 <=? year).
Qed.

Lemma X6_empty_region_witness :
  parse_leaderboard (fun _ => Samples.page_2025 "  ") 2025 None false
  = Raise AssertionError.
Proof.
  apply (X6_empty_region (fun _ => Samples.page_2025 "  ") 2025 None false "  ").
  - discriminate.
  - vm_compute. reflexivity.
  - vm_compute. reflexivity.
  - vm_compute. reflexivity.
Defined.

(** ** The rank fields *)

Lemma elem_of_py_insert {A} (i : nat) (y x : A) l :
  x ∈ py_insert i y l -> x = y \/ x ∈ l.
Proof.
  unfold py_insert. rewrite elem_of_app, elem_of_cons.
  intros [H|[->|H]]; [right|by left|right].
  - rewrite <-(take_drop i l), elem_of_app. by left.
  - rewrite <-(take_drop i l), elem_of_app. by right.
Qed.

Lemma normalize_elem year fields o :
  o ∈ normalize year (dash_to_None <$> fields) ->
  o = None \/ exists t, t ∈ fields /\ o = Some t.
Proof.
  assert (o ∈ dash_to_None <$> fields ->
          o = None \/ exists t, t ∈ fields /\ o = Some t) as Hbase.
  { intros (t & -> & Ht)%list_elem_of_fmap. unfold dash_to_None.
    destruct (String.eqb t "-"); eauto. }
  unfold normalize. destruct (2025 <=? year); [|done].
  assert (o ∈ py_insert 1 None (py_insert 1 None (dash_to_None <$> fields)) ->
          o = None \/ exists t, t ∈ fields /\ o = Some t) as Hone.
  { intros [->|[->|H]%elem_of_py_insert]%elem_of_py_insert; auto. }
  destruct (3 <? _)%nat; [|done].
  intros [->|[->|H]%elem_of_py_insert]%elem_of_py_insert; auto.
Qed.

Lemma row_record_ranks year runtime_data use_runtime line d record :
  row_record year runtime_data use_runtime line = Ok (d, record) ->
  exists day fields,
    tokens_of line = day :: fields
    /\ check_fields year (day :: fields)
       = Ok (day, normalize year (dash_to_None <$> fields))
    /\ rank1 record = mjoin (normalize year (dash_to_None <$> fields) !! 1%nat)
    /\ score1 record = mjoin (normalize year (dash_to_None <$> fields) !! 2%nat)
    /\ rank2 record = mjoin (normalize year (dash_to_None <$> fields) !! 4%nat)
    /\ score2 record = mjoin (normalize year (dash_to_None <$> fields) !! 5%nat).
Proof.
  intros (day & fields & scores & Htok & _ & Hcf & -> & Hsc)%row_record_inv.
  exists day, fields. split; [done|]. split; [done|].
  destruct use_runtime.
  - destruct Hsc as (tracker & _ & _ & ->). cbn [DayScores_of rank1 score1 rank2 score2].
    by rewrite !list_lookup_insert_ne by done.
  - by subst scores.
Qed.

Lemma truthy_is_Some rank : rank <> Some "" -> truthy rank = bool_decide (is_Some rank).
Proof. destruct rank as [[|c s]|]; try done. Qed.

(** X7.  No record that the parser returns has an empty string as a
    rank: the tokens of a line are never empty.  [bool(rank)] in
    [_get_stars] is therefore true exactly when the rank is present,
    and the remote star count is the number of ranks present. *)
Theorem X7_ranks_present_or_absent get_leaderboard year runtime_data use_runtime
    m d record :
  parse_leaderboard get_leaderboard year runtime_data use_runtime = Ok m ->
  m !! d = Some record ->
  rank1 record <> Some "" /\ rank2 record <> Some ""
  /\ leaderboard_stars (Some record)
     = length (omap id [rank1 record; rank2 record]).
Proof.
  unfold parse_leaderboard. destruct (use_runtime && _); [done|].
  destruct (Text.contains _ _); [by intros [= <-]|].
  destruct (first_match _ _) as [body|]; [|done].
  intros Hrun Hd.
  destruct (parse_rows_inv _ _ _ _ _ _ _ _ Hrun Hd) as [H|(line & Hline & Hrec)];
    [by rewrite lookup_empty in H|].
  apply row_record_ranks in Hrec as (day & fields & Htok & _ & H1 & _ & H2 & _).
  assert (forall i, mjoin (normalize year (dash_to_None <$> fields) !! i) <> Some "")
    as Hne.
  { intros i Hi.
    destruct (normalize year (dash_to_None <$> fields) !! i) as [o|] eqn:Ho; [|done].
    cbn in Hi. subst o. apply list_elem_of_lookup_2 in Ho.
    apply normalize_elem in Ho as [?|(t & Ht & [= <-])]; [done|].
    by apply (tokens_of_fields_nonempty _ _ _ Htok "" Ht). }
  assert (rank1 record <> Some "") as Hr1 by (rewrite H1; apply Hne).
  assert (rank2 record <> Some "") as Hr2 by (rewrite H2; apply Hne).
  split; [done|]. split; [done|].
  cbn [leaderboard_stars]. rewrite !truthy_is_Some by done.
  by destruct (rank1 record), (rank2 record).
Qed.

Lemma row_record_newer year runtime_data use_runtime line d record :
  2025 <= year ->
  row_record year runtime_data use_runtime line = Ok (d, record) ->
  rank1 record = None /\ score1 record = None
  /\ rank2 record = None /\ score2 record = None.
Proof.
  intros Hy (day & fields & _ & Hcf & -> & -> & -> & ->)%row_record_ranks.
  rewrite check_fields_newer in Hcf by done.
  destruct fields as [|t1 [|t2 [|t3 rest]]]; try done.
  - change (dash_to_None <$> [t1]) with [dash_to_None t1] in *.
    injection Hcf as <-. done.
  - change (dash_to_None <$> [t1; t2])
      with [dash_to_None t1; dash_to_None t2] in *.
    injection Hcf as <-. done.
Qed.

Lemma parse_newer_no_ranks get_leaderboard year runtime_data use_runtime m d record :
  2025 <= year ->
  parse_leaderboard get_leaderboard year runtime_data use_runtime = Ok m ->
  m !! d = Some record ->
  rank1 record = None /\ score1 record = None
  /\ rank2 record = None /\ score2 record = None.
Proof.
  intros Hy. unfold parse_leaderboard. destruct (use_runtime && _); [done|].
  destruct (Text.contains _ _); [by intros [= <-]|].
  destruct (first_match _ _) as [body|]; [|done].
  intros Hrun Hd.
  destruct (parse_rows_inv _ _ _ _ _ _ _ _ Hrun Hd) as [H|(line & Hline & Hrec)];
    [by rewrite lookup_empty in H|].
  by apply row_record_newer in Hrec.
Qed.

(** X8.  From 2025 on the parser fills no rank and no score, with or
    without runtime substitution: every record it returns counts as 0
    remote stars. *)
Theorem X8_newer_format_no_ranks get_leaderboard year runtime_data use_runtime
    m d record :
  2025 <= year ->
  parse_leaderboard get_leaderboard year runtime_data use_runtime = Ok m ->
  m !! d = Some record ->
  rank1 record = None /\ score1 record = None
  /\ rank2 record = None /\ score2 record = None
  /\ leaderboard_stars (Some record) = 0%nat.
Proof.
  intros Hy Hrun Hd.
  destruct (parse_newer_no_ranks _ _ _ _ _ _ _ Hy Hrun Hd) as (H1 & H2 & H3 & H4).
  repeat split; try done. cbn. by rewrite H1, H3.
Qed.

(** ** More on the composed state *)

Section ComposedMore.

Variable get_leaderboard : Z -> string.
Variable self : TileMaker.
Variable tracker : DataTracker.

#[local] Abbreviation compose :=
  (compose_solve_data get_leaderboard self (Some tracker)).
#[local] Abbreviation parse year :=
  (parse_leaderboard get_leaderboard year (Some tracker) (use_runtime_of self)).

Lemma composed_year languages years sd calls year yd :
  compose languages years = Ok (sd, calls) ->
  year_to_data sd !! year = Some yd ->
  has_year tracker year = true
  /\ languages <> [] /\ year ∈ years
  /\ (is_leaderboard_needed self = true -> parse year = Ok (day_to_scores yd))
  /\ (is_leaderboard_needed self = false -> day_to_scores yd = ∅)
  /\ (forall day,
        day_to_stars yd !! day
        = decided self tracker (day_to_scores yd) year day
            <$> last (contributors (product languages years) year day))
  /\ (forall day,
        day_to_paths yd !! day
        = nonempty (contributors (product languages years) year day)).
Proof.
  intros Hrun Hyd. apply compose_pairs_inv in Hrun as [_ Hinv].
  specialize (Hinv year). rewrite Hyd in Hinv.
  destruct Hinv as (Hk & Hin & Hsc & Hb & Hst & Hpa).
  apply list_elem_of_fmap in Hin as ([l y] & -> & Hin).
  apply elem_of_product in Hin as [Hl Hy]. cbn [snd] in *.
  split; [done|]. split; [by intros ->; apply elem_of_nil in Hl|].
  split; [done|]. rewrite Hsc. split; [done|]. split; [|done].
  intros Hneed. unfold scores_used. by rewrite Hneed.
Qed.

(** X9.  From 2025 on the rules [on_leaderboard] and [both] give no
    star at all: the ranks they count are never filled for these years,
    so every star count stored for such a year is 0. *)
Theorem X9_newer_years_without_remote_stars languages years sd calls year yd day n :
  compose_solve_data get_leaderboard self (Some tracker) languages years
  = Ok (sd, calls) ->
  year_to_data sd !! year = Some yd ->
  2025 <= year ->
  count_as_solved_when self = OnLeaderboard \/ count_as_solved_when self = Both ->
  day_to_stars yd !! day = Some n ->
  n = 0%nat.
Proof.
  intros Hrun Hyd Hy Hrule Hn.
  destruct (composed_year _ _ _ _ _ _ Hrun Hyd) as (_ & _ & _ & Hb & _ & Hst & _).
  assert (is_leaderboard_needed self = true) as Hneed.
  { unfold is_leaderboard_needed. destruct Hrule as [-> | ->]; apply orb_true_r. }
  specialize (Hb Hneed). rewrite Hst in Hn.
  destruct (last _) as [l|]; [|done]. injection Hn as <-.
  assert (leaderboard_stars (day_to_scores yd !! day) = 0%nat) as Hzero.
  { destruct (day_to_scores yd !! day) as [record|] eqn:Hrec; [|done].
    destruct (parse_newer_no_ranks _ _ _ _ _ _ _ Hy Hb Hrec) as (H1 & _ & H3 & _).
    cbn. by rewrite H1, H3. }
  unfold decided, _get_stars. rewrite Hzero.
  destruct Hrule as [-> | ->]; unfold day25_bonus; cbn;
    by rewrite andb_false_r.
Qed.

Lemma composed_years_iff languages years sd calls year :
  compose languages years = Ok (sd, calls) ->
  is_Some (year_to_data sd !! year)
  <-> languages <> [] /\ year ∈ years /\ has_year tracker year = true.
Proof.
  intros Hrun. split.
  - intros [yd Hyd].
    by destruct (composed_year _ _ _ _ _ _ Hrun Hyd) as (? & ? & ? & _).
  - intros (Hl & Hy & Hk). pose proof Hrun as Hrun'.
    apply compose_pairs_inv in Hrun' as [_ Hinv]. specialize (Hinv year).
    destruct (year_to_data sd !! year) as [yd|]; [eauto|].
    destruct languages as [|l ls]; [done|].
    rewrite (Hinv (l, year)) in Hk; [done| |done].
    apply elem_of_product. split; [left|done].
Qed.

(** X10.  A year has an entry in the result exactly when it is listed,
    the tracker knows it and there is at least one language; it has
    one even when no language ran any of its days, with no star and no
    contributor in it. *)
Theorem X10_years_composed languages years sd calls year :
  compose languages years = Ok (sd, calls) ->
  (is_Some (year_to_data sd !! year)
   <-> languages <> [] /\ year ∈ years /\ has_year tracker year = true)
  /\ forall yd,
       year_to_data sd !! year = Some yd ->
       (forall language, language ∈ languages -> days_ran language year = []) ->
       day_to_stars yd = ∅ /\ day_to_paths yd = ∅.
Proof.
  intros Hrun. split; [by apply (composed_years_iff _ _ _ calls)|].
  intros yd Hyd Hnone.
  destruct (composed_year _ _ _ _ _ _ Hrun Hyd) as (_ & _ & _ & _ & _ & Hst & Hpa).
  assert (forall day, contributors (product languages years) year day = []) as Hc.
  { intros day.
    destruct (contributors (product languages years) year day) as [|l ls] eqn:E;
      [done|].
    assert (l ∈ contributors (product languages years) year day) as Hl
      by (rewrite E; left).
    apply contributors_elem in Hl as [Hl Hd].
    apply elem_of_product in Hl as [Hl _].
    rewrite (Hnone l Hl) in Hd. by apply elem_of_nil in Hd. }
  split; apply map_eq; intros day; rewrite lookup_empty.
  - by rewrite Hst, Hc.
  - by rewrite Hpa, Hc.
Qed.

Lemma contributors_row language years year day :
  contributors (pair language <$> years) year day
  = if decide (day ∈ days_ran language year)
    then replicate (length (filter (fun y => y = year) years)) language
    else [].
Proof.
  induction years as [|y years IH].
  - by destruct (decide _).
  - change (pair language <$> y :: years)
      with ([(language, y)] ++ (pair language <$> years)).
    rewrite contributors_app, IH, contributors_single, filter_cons.
    destruct (decide (day ∈ days_ran language year)) as [Hd|Hd].
    + destruct (decide (y = year)) as [->|Hne].
      * by rewrite decide_True.
      * by rewrite decide_False by (intros [? _]; done).
    + by rewrite decide_False by (intros [_ ?]; done).
Qed.

Lemma contributors_product languages years year day :
  contributors (product languages years) year day
  = filter (fun language => day ∈ days_ran language year) languages
      ≫= replicate (length (filter (fun y => y = year) years)).
Proof.
  induction languages as [|l ls IH]; [done|].
  rewrite product_cons, contributors_app, contributors_row, IH, filter_cons.
  destruct (decide (day ∈ days_ran l year)); [|done].
  by rewrite bind_cons.
Qed.

(** X11.  The contributing-language list of a day holds the languages
    that ran this day, in processing order, whether or not they earned
    a star, each as often as the year is listed; with the year listed
    once it is the list of the languages that ran the day.  A day that
    no language ran has no list. *)
Theorem X11_contributing_languages languages years sd calls year yd day :
  compose languages years = Ok (sd, calls) ->
  year_to_data sd !! year = Some yd ->
  day_to_paths yd !! day
  = nonempty (filter (fun language => day ∈ days_ran language year) languages
                ≫= replicate (length (filter (fun y => y = year) years)))
  /\ (NoDup years ->
      day_to_paths yd !! day
      = nonempty (filter (fun language => day ∈ days_ran language year) languages)).
Proof.
  intros Hrun Hyd.
  destruct (composed_year _ _ _ _ _ _ Hrun Hyd) as (_ & _ & Hy & _ & _ & _ & Hpa).
  rewrite Hpa, contributors_product. split; [done|]. intros Hnd.
  assert (length (filter (fun y => y = year) years) = 1%nat) as ->.
  { clear -Hy Hnd. induction years as [|y ys IH]; [by apply elem_of_nil in Hy|].
    apply NoDup_cons in Hnd as [Hny Hnd]. rewrite filter_cons.
    destruct (decide (y = year)) as [->|Hne].
    - cbn. f_equal. destruct (filter _ ys) as [|z zs] eqn:E; [done|].
      assert (z ∈ filter (fun y => y = year) ys) as Hz by (rewrite E; left).
      apply list_elem_of_filter in Hz as [-> Hz]. done.
    - apply IH; [|done]. apply elem_of_cons in Hy as [->|]; done. }
  f_equal. induction (filter _ languages) as [|l ls IH]; [done|].
  by rewrite bind_cons, IH.
Qed.

Lemma composed_day_ran languages years sd calls year yd day :
  compose languages years = Ok (sd, calls) ->
  year_to_data sd !! year = Some yd ->
  is_Some (day_to_stars yd !! day) ->
  1 <= day <= 25
  /\ exists language, language ∈ languages /\ (year, day) ∈ ran language.
Proof.
  intros Hrun Hyd.
  destruct (composed_year _ _ _ _ _ _ Hrun Hyd) as (_ & _ & _ & _ & _ & Hst & _).
  rewrite Hst, fmap_is_Some.
  intros [l Hl%last_Some_elem_of%contributors_elem].
  destruct Hl as [Hl Hd]. apply elem_of_product in Hl as [Hl _].
  apply elem_of_days_ran in Hd as [Hd Hran]. eauto.
Qed.

(** X12.  In a composed year the days that hold a star count are the
    days that hold a contributing-language list; each lies between 1
    and 25 and was run by one of the languages, and no list is empty. *)
Theorem X12_days_of_a_year languages years sd calls year yd day :
  compose_solve_data get_leaderboard self (Some tracker) languages years
  = Ok (sd, calls) ->
  year_to_data sd !! year = Some yd ->
  (is_Some (day_to_stars yd !! day) <-> is_Some (day_to_paths yd !! day))
  /\ (is_Some (day_to_stars yd !! day) ->
      1 <= day <= 25
      /\ exists language, language ∈ languages /\ (year, day) ∈ ran language)
  /\ day_to_paths yd !! day <> Some [].
Proof.
  intros Hrun Hyd.
  split; [|split; [by apply (composed_day_ran languages years sd calls)|]].
  - destruct (composed_year _ _ _ _ _ _ Hrun Hyd)
      as (_ & _ & _ & _ & _ & Hst & Hpa).
    rewrite Hst, Hpa, fmap_is_Some, last_is_Some.
    destruct (contributors _ _ _); cbn; [|done].
    split; [done|by intros []].
  - destruct (composed_year _ _ _ _ _ _ Hrun Hyd)
      as (_ & _ & _ & _ & _ & _ & Hpa).
    rewrite Hpa. by destruct (contributors _ _ _).
Qed.

(** X13.  When no leaderboard is needed, a composition that returns
    has called the parser for no year and stores every year with an
    empty score dictionary; the star count of a day is then the number
    of solution files of the last language that ran the day, 0 for an
    absent solution and 2 instead of 1 on day 25. *)
Theorem X13_no_leaderboard_needed languages years sd calls :
  is_leaderboard_needed self = false ->
  compose_solve_data get_leaderboard self (Some tracker) languages years
  = Ok (sd, calls) ->
  calls = []
  /\ forall year yd,
       year_to_data sd !! year = Some yd ->
       day_to_scores yd = ∅
       /\ forall day,
            day_to_stars yd !! day
            = match last (filter (fun language => day ∈ days_ran language year)
                            languages) with
              | Some language =>
                  let files := match day_solution tracker language year day with
                               | Some files => files
                               | None => 0%nat
                               end in
                  Some (if decide (day = 25 /\ files = 1%nat) then 2%nat else files)
              | None => None
              end.
Proof.
  intros Hneed Hrun. split.
  { pose proof Hrun as Hrun'. apply compose_pairs_inv in Hrun' as [-> _].
    by rewrite Hneed. }
  intros year yd Hyd.
  destruct (composed_year _ _ _ _ _ _ Hrun Hyd) as (_ & _ & Hy & _ & Hsc & Hst & _).
  split; [auto|]. intros day.
  rewrite Hst, last_contributors_product by done.
  destruct (last _) as [language|]; [|done]. cbn. f_equal.
  assert (count_as_solved_when self = FileExists) as Hrule.
  { unfold is_leaderboard_needed in Hneed. apply orb_false_iff in Hneed as [_ H].
    by destruct (count_as_solved_when self). }
  unfold decided, _get_stars, day25_bonus. rewrite Hrule.
  destruct (day_solution tracker language year day) as [files|]; cbn.
  - destruct (decide (day = 25 /\ files = 1%nat)) as [[-> ->]|Hn]; [done|].
    destruct (bool_decide (day = 25)) eqn:E1, (bool_decide (files = 1%nat)) eqn:E2;
      try done.
    apply bool_decide_eq_true in E1, E2. tauto.
  - rewrite andb_false_r. by rewrite decide_False by (intros [_ ?]; done).
Qed.

(** X14.  The score dictionary stored with a year is what
    [parse_leaderboard] returns for that year whenever a leaderboard is
    needed; the parser is given the tracker as its runtime data, and
    substitutes runtimes exactly when the right side shows them. *)
Theorem X14_scores_stored languages years sd calls year yd :
  is_leaderboard_needed self = true ->
  compose_solve_data get_leaderboard self (Some tracker) languages years
  = Ok (sd, calls) ->
  year_to_data sd !! year = Some yd ->
  parse_leaderboard get_leaderboard year (Some tracker)
    match what_to_show_on_right_side self with
    | Runtime => true
    | Checkmark | TimeAndRank => false
    end
  = Ok (day_to_scores yd).
Proof.
  intros Hneed Hrun Hyd.
  destruct (composed_year _ _ _ _ _ _ Hrun Hyd) as (_ & _ & _ & H & _).
  rewrite <-(H Hneed). unfold use_runtime_of.
  by destruct (what_to_show_on_right_side self).
Qed.

End ComposedMore.

(** X15.  Left at its default [None], [solutions_by_year] makes
    composition raise [TypeError] as soon as there is a language and a
    year to process; with no language or no year the result is empty. *)
Theorem X15_no_tracker get_leaderboard self languages years :
  compose_solve_data get_leaderboard self None languages years
  = match languages, years with
    | _ :: _, _ :: _ => Raise TypeError
    | _, _ => Ok ({| year_to_data := ∅ |}, [])
    end.
Proof.
  unfold compose_solve_data. destruct languages as [|l ls]; [done|].
  destruct years as [|y ys].
  - assert (product (l :: ls) (@nil Z) = []) as ->; [|done].
    induction (l :: ls) as [|x xs IH]; [done|]. by rewrite product_cons, IH.
  - by rewrite product_cons.
Qed.

(** ** Bounds on the stars *)

Lemma day25_bonus_le day stars : (stars <= 2 -> day25_bonus day stars <= 2)%nat.
Proof.
  unfold day25_bonus. destruct (bool_decide (day = 25) && _); lia.
Qed.

Lemma total_stars_le year_data (bound : nat) :
  (forall day n, day_to_stars year_data !! day = Some n -> (n <= bound)%nat) ->
  (total_stars year_data <= bound * size (day_to_stars year_data))%nat.
Proof.
  unfold total_stars. generalize (day_to_stars year_data). intros m.
  induction m as [|day n m Hfresh Hfold IH] using map_first_key_ind.
  - intros _. rewrite map_fold_empty, map_size_empty. lia.
  - intros Hall. rewrite map_fold_insert_first_key by done.
    rewrite map_size_insert_None by done.
    assert (n <= bound)%nat by (apply (Hall day); by rewrite lookup_insert_eq).
    assert (map_fold (fun _ n acc => (n + acc)%nat) 0%nat m <= bound * size m)%nat.
    { apply IH. intros d k Hd. apply (Hall d).
      rewrite lookup_insert_ne; [done|]. intros ->. congruence. }
    lia.
Qed.

Lemma size_days_le (m : gmap Z nat) :
  (forall day, is_Some (m !! day) -> 1 <= day <= 25) -> (size m <= 25)%nat.
Proof.
  intros Hdays. rewrite <-size_dom.
  assert (dom m ⊆ (list_to_set (seqZ 1 25) : gset Z)) as Hsub.
  { intros day Hd. apply elem_of_dom in Hd. apply elem_of_list_to_set, elem_of_seqZ.
    specialize (Hdays day Hd). lia. }
  apply subseteq_size in Hsub. rewrite size_list_to_set in Hsub by apply NoDup_seqZ.
  by rewrite length_seqZ in Hsub.
Qed.

(** X16.  Under [on_leaderboard] and [both], and under any rule when no
    day has more than two solution files, every stored star count is at
    most 2 and the stars of a year add up to at most 50. *)
Theorem X16_star_bounds get_leaderboard self tracker languages years sd calls year yd :
  compose_solve_data get_leaderboard self (Some tracker) languages years
  = Ok (sd, calls) ->
  year_to_data sd !! year = Some yd ->
  count_as_solved_when self = OnLeaderboard \/ count_as_solved_when self = Both
  \/ (forall language day,
        (file_stars (day_solution tracker language year day) <= 2)%nat) ->
  (forall day n, day_to_stars yd !! day = Some n -> (n <= 2)%nat)
  /\ (total_stars yd <= 50)%nat.
Proof.
  intros Hrun Hyd Hrule.
  destruct (composed_year _ _ _ _ _ _ _ _ _ Hrun Hyd) as (_ & _ & _ & _ & _ & Hst & _).
  assert (forall day n, day_to_stars yd !! day = Some n -> (n <= 2)%nat) as Hle.
  { intros day n. rewrite Hst. destruct (last _) as [l|]; [|done].
    intros [= <-]. unfold decided. apply day25_bonus_le. unfold _get_stars.
    pose proof (leaderboard_stars_le (day_to_scores yd !! day)).
    destruct Hrule as [-> | [-> | Hfiles]]; [lia|lia|].
    specialize (Hfiles l day). destruct (count_as_solved_when self); lia. }
  split; [done|].
  pose proof (total_stars_le yd 2 Hle) as Htot.
  assert (size (day_to_stars yd) <= 25)%nat; [|lia].
  apply size_days_le. intros day Hday.
  by destruct (composed_day_ran _ _ _ _ _ _ _ _ _ day Hrun Hyd Hday).
Qed.

(** ** The year heading and its tiles, continued *)

Lemma fill_step_lookup (m : gmap Z (list Language)) x d :
  match m !! x with Some _ => m | None => <[x := []]> m end !! d
  = if decide (x = d) then Some (default [] (m !! d)) else m !! d.
Proof.
  destruct (decide (x = d)) as [->|Hne].
  - destruct (m !! d) eqn:E; [by rewrite E|by rewrite lookup_insert_eq].
  - destruct (m !! x); [done|by rewrite lookup_insert_ne].
Qed.

Lemma fill_empty_days_lookup day_to_solutions max_day day :
  fill_empty_days_in_dict day_to_solutions max_day !! day
  = if decide (1 <= day <= max_day)
    then Some (default [] (day_to_solutions !! day))
    else day_to_solutions !! day.
Proof.
  unfold fill_empty_days_in_dict.
  assert (forall ds (m : gmap Z (list Language)),
    foldl (fun m day => match m !! day with
                        | Some _ => m
                        | None => <[day := []]> m
                        end) m ds !! day
    = if decide (day ∈ ds) then Some (default [] (m !! day)) else m !! day) as Hfold.
  { induction ds as [|x ds IH]; intros m; cbn [foldl].
    - by rewrite decide_False by apply not_elem_of_nil.
    - rewrite IH, fill_step_lookup.
      destruct (decide (day ∈ ds)) as [Hin|Hnin].
      + rewrite (decide_True (P := day ∈ x :: ds)) by (by right).
        by destruct (decide (x = day)).
      + destruct (decide (x = day)) as [->|Hne].
        * by rewrite (decide_True (P := day ∈ day :: ds)) by left.
        * by rewrite (decide_False (P := day ∈ x :: ds))
            by (rewrite elem_of_cons; intros [?|?]; done). }
  rewrite Hfold.
  destruct (decide (1 <= day <= max_day)) as [Hr|Hr].
  - rewrite decide_True; [done|]. apply elem_of_seqZ. lia.
  - rewrite decide_False; [done|]. rewrite elem_of_seqZ. lia.
Qed.

Lemma fill_default day_to_solutions max_day day :
  default [] (fill_empty_days_in_dict day_to_solutions max_day !! day)
  = default [] (day_to_solutions !! day).
Proof. rewrite fill_empty_days_lookup. by destruct (decide _). Qed.

(** X17.  [fill_empty_days_in_dict] gives every day from 1 to [max_day]
    an entry, the empty list where there was none, and changes nothing
    else: the lists already there and the days outside the range are
    kept. *)
Theorem X17_fill_empty_days day_to_solutions max_day :
  (forall day, 1 <= day <= max_day ->
     is_Some (fill_empty_days_in_dict day_to_solutions max_day !! day))
  /\ (forall day paths,
        day_to_solutions !! day = Some paths ->
        fill_empty_days_in_dict day_to_solutions max_day !! day = Some paths)
  /\ (forall day,
        day_to_solutions !! day = None ->
        fill_empty_days_in_dict day_to_solutions max_day !! day
        = if decide (1 <= day <= max_day) then Some [] else None).
Proof.
  split; [|split].
  - intros day Hday. rewrite fill_empty_days_lookup, decide_True by done. eauto.
  - intros day paths Hp. rewrite fill_empty_days_lookup, Hp. by destruct (decide _).
  - intros day Hp. by rewrite fill_empty_days_lookup, Hp.
Qed.

Lemma X17_fill_empty_days_witness :
  fill_empty_days_in_dict {[ 2 := [Samples.python] ]} 3 !! 1 = Some []
  /\ fill_empty_days_in_dict {[ 2 := [Samples.python] ]} 3 !! 2
     = Some [Samples.python].
Proof.
  destruct (X17_fill_empty_days {[ 2 := [Samples.python] ]} 3) as (_ & H2 & H3).
  split.
  - rewrite (H3 1) by reflexivity. reflexivity.
  - apply H2. reflexivity.
Defined.

(** The loop of lines 298-301. *)
Lemma tiles_loop year_data (filled : gmap Z (list Language)) days calls :
  for_each
    (fun calls day =>
       let solutions := default [] (filled !! day) in
       match day_to_stars year_data !! day with
       | None => Raise KeyError
       | Some stars =>
           Ok (calls ++ [{| tile_day := day;
                            tile_solutions := solutions;
                            tile_scores := day_to_scores year_data !! day;
                            tile_stars := stars |}])
       end)
    calls days
  = if decide (Forall (fun day => is_Some (day_to_stars year_data !! day)) days)
    then Ok (calls
             ++ ((fun day =>
                    {| tile_day := day;
                       tile_solutions := default [] (filled !! day);
                       tile_scores := day_to_scores year_data !! day;
                       tile_stars := default 0%nat (day_to_stars year_data !! day) |})
                   <$> days))
    else Raise KeyError.
Proof.
  revert calls. induction days as [|d days IH]; intros calls; cbn [for_each].
  - rewrite decide_True by constructor. by rewrite app_nil_r.
  - destruct (day_to_stars year_data !! d) as [n|] eqn:Hd.
    + unfold mbind, result_bind. rewrite IH.
      destruct (decide (Forall _ days)) as [Hall|Hnot].
      * rewrite decide_True by (constructor; [by rewrite Hd|done]).
        cbn [fmap list_fmap]. rewrite Hd. cbn. by rewrite <-app_assoc.
      * rewrite decide_False; [done|]. by intros [_ ?]%Forall_cons.
    + unfold mbind, result_bind. rewrite decide_False; [done|].
      intros [H _]%Forall_cons. rewrite Hd in H. by destruct H.
Qed.

Lemma handle_year_range self year year_data :
  handle_year self year year_data
  = if decide (Forall (fun day => is_Some (day_to_stars year_data !! day))
                 (seqZ 1 (max_day_of self year_data)))
    then Ok {| heading_stars := total_stars year_data;
               tiles :=
                 (fun day =>
                    {| tile_day := day;
                       tile_solutions := default [] (day_to_paths year_data !! day);
                       tile_scores := day_to_scores year_data !! day;
                       tile_stars := default 0%nat (day_to_stars year_data !! day) |})
                   <$> seqZ 1 (max_day_of self year_data) |}
    else Raise KeyError.
Proof.
  unfold handle_year. fold (max_solved_day year_data).
  fold (max_day_of self year_data). cbv zeta. rewrite tiles_loop.
  destruct (decide _); [|done]. unfold mbind, result_bind. cbn [app].
  do 2 f_equal. apply list_fmap_ext. intros _ day _.
  by rewrite fill_default.
Qed.

Lemma total_stars_sum year_data :
  total_stars year_data = sum_list (map_to_list (day_to_stars year_data)).*2.
Proof.
  unfold total_stars. rewrite map_fold_foldr.
  induction (map_to_list (day_to_stars year_data)) as [|[day n] entries IH];
    [done|].
  cbn. by rewrite IH.
Qed.

(** X18.  The range that [handle_year] renders ends at day 25 with
    [create_all_days] and at the last solved day without.  When
    [handle_year] returns, every day of the range had a star entry, the
    heading shows the sum of all star counts of the year, and
    [handle_day] was called once per day of the range, in order, with
    the day's contributing languages (none for a day without a list),
    its score record if any, and its stars.  A day of the range without
    a star entry makes [handle_year] raise. *)
Theorem X18_handle_year self year year_data :
  let last_day := if create_all_days self then 25 else max_solved_day year_data in
  (forall output,
     handle_year self year year_data = Ok output ->
     heading_stars output = sum_list (map_to_list (day_to_stars year_data)).*2
     /\ tiles output
        = (fun day =>
             {| tile_day := day;
                tile_solutions := default [] (day_to_paths year_data !! day);
                tile_scores := day_to_scores year_data !! day;
                tile_stars := default 0%nat (day_to_stars year_data !! day) |})
            <$> seqZ 1 last_day
     /\ forall day,
          1 <= day <= last_day -> is_Some (day_to_stars year_data !! day))
  /\ (forall day,
        1 <= day <= last_day ->
        day_to_stars year_data !! day = None ->
        exists e, handle_year self year year_data = Raise e).
Proof.
  intros last_day. rewrite handle_year_range.
  change (max_day_of self year_data) with last_day.
  destruct (decide (Forall _ (seqZ 1 last_day))) as [Hall|Hnot]; split.
  - intros output [= <-]. cbn [heading_stars tiles].
    split; [apply total_stars_sum|]. split; [done|].
    intros day Hday. rewrite Forall_forall in Hall.
    apply Hall, elem_of_seqZ. lia.
  - intros day Hday Hnone. rewrite Forall_forall in Hall.
    assert (is_Some (day_to_stars year_data !! day)) as [n Hn]
      by (apply Hall, elem_of_seqZ; lia).
    congruence.
  - done.
  - intros day _ _. by exists KeyError.
Qed.

Lemma X18_handle_year_witness :
  let year_data :=
    {| day_to_scores := ∅;
       day_to_paths := {[ 1 := [Samples.rust] ]};
       day_to_stars := {[ 1 := 2%nat; 2 := 1%nat ]} |} in
  (exists output,
     handle_year Samples.by_files 2020 year_data = Ok output
     /\ heading_stars output = 3%nat
     /\ tile_day <$> tiles output = [1; 2])
  /\ exists e, handle_year Samples.all_days 2020 year_data = Raise e.
Proof.
  intros year_data. split.
  - destruct (handle_year Samples.by_files 2020 year_data) as [output|e] eqn:Hrun;
      [|by vm_compute in Hrun].
    exists output. split; [done|].
    destruct (X18_handle_year Samples.by_files 2020 year_data) as [H _].
    destruct (H output Hrun) as (Hsum & Htiles & _).
    rewrite Hsum, Htiles. split; vm_compute; reflexivity.
  - destruct (X18_handle_year Samples.all_days 2020 year_data) as [_ H].
    apply (H 3); [vm_compute; split; discriminate|reflexivity].
Defined.

(** ** The range of days *)

Lemma foldl_max_spec a l :
  foldl Z.max a l ∈ a :: l /\ forall x, x ∈ a :: l -> x <= foldl Z.max a l.
Proof.
  revert a. induction l as [|b l IH]; intros a; cbn [foldl].
  - split; [left|]. intros x ->%list_elem_of_singleton. lia.
  - destruct (IH (Z.max a b)) as [Hin Hle]. split.
    + apply elem_of_cons in Hin as [Heq|Hin]; [|by do 2 right].
      rewrite Heq. destruct (Z.max_spec a b) as [[_ ->]|[_ ->]];
        [right; left|left].
    + intros x [->|[->|Hx]%elem_of_cons]%elem_of_cons.
      * specialize (Hle (Z.max a b) ltac:(left)). lia.
      * specialize (Hle (Z.max a b) ltac:(left)). lia.
      * apply Hle. by right.
Qed.

Lemma elem_of_starred (m : gmap Z nat) day :
  day ∈ (map_to_list m ≫= fun '(day, n) => if (0 <? n)%nat then [day] else [])
  <-> exists n, m !! day = Some n /\ (0 < n)%nat.
Proof.
  rewrite list_elem_of_bind. split.
  - intros ([d n] & Hin & Hm). apply elem_of_map_to_list in Hm.
    destruct (0 <? n)%nat eqn:Hn; [|by apply elem_of_nil in Hin].
    apply list_elem_of_singleton in Hin as ->. apply Nat.ltb_lt in Hn. eauto.
  - intros (n & Hm & Hn). exists (day, n). split.
    + apply Nat.ltb_lt in Hn. rewrite Hn. left.
    + by apply elem_of_map_to_list.
Qed.

Lemma max_solved_day_spec year_data :
  (forall day n,
     day_to_stars year_data !! day = Some n -> (0 < n)%nat ->
     day <= max_solved_day year_data)
  /\ ((exists day n, day_to_stars year_data !! day = Some n /\ (0 < n)%nat) ->
      exists n,
        day_to_stars year_data !! max_solved_day year_data = Some n /\ (0 < n)%nat)
  /\ ((forall day n, day_to_stars year_data !! day = Some n -> n = 0%nat) ->
      max_solved_day year_data = 0).
Proof.
  unfold max_solved_day.
  set (starred := map_to_list (day_to_stars year_data) ≫= _).
  assert (forall day, day ∈ starred
            <-> exists n, day_to_stars year_data !! day = Some n /\ (0 < n)%nat)
    as Hstarred by apply elem_of_starred.
  clearbody starred. split; [|split].
  - intros day n Hd Hn. assert (day ∈ starred) as Hin by (apply Hstarred; eauto).
    destruct starred as [|a l]; [by apply elem_of_nil in Hin|].
    by apply foldl_max_spec.
  - intros (day & n & Hd & Hn).
    assert (day ∈ starred) as Hin by (apply Hstarred; eauto).
    destruct starred as [|a l]; [by apply elem_of_nil in Hin|].
    apply Hstarred. cbn [max_default0]. apply foldl_max_spec.
  - intros Hzero. destruct starred as [|a l]; [done|].
    assert (a ∈ a :: l) as Ha by left.
    apply Hstarred in Ha as (n & Hd & Hn). specialize (Hzero _ _ Hd). lia.
Qed.

(** X19.  Without [create_all_days] the range ends at the last day that
    has at least one star: no day with a star lies beyond it, the day
    itself has a star whenever some day has one, and the range is empty
    (it ends at 0) when no day has. *)
Theorem X19_last_solved_day year_data :
  (forall day n,
     day_to_stars year_data !! day = Some n -> (0 < n)%nat ->
     day <= max_solved_day year_data)
  /\ ((exists day n, day_to_stars year_data !! day = Some n /\ (0 < n)%nat) ->
      exists n,
        day_to_stars year_data !! max_solved_day year_data = Some n /\ (0 < n)%nat)
  /\ ((forall day n, day_to_stars year_data !! day = Some n -> n = 0%nat) ->
      max_solved_day year_data = 0).
Proof. apply max_solved_day_spec. Qed.

Lemma X19_last_solved_day_witness :
  let yd := {| day_to_scores := ∅; day_to_paths := ∅;
               day_to_stars := {[ 2 := 1%nat; 3 := 0%nat ]} |} in
  exists n, day_to_stars yd !! max_solved_day yd = Some n /\ (0 < n)%nat.
Proof.
  intros yd. destruct (X19_last_solved_day yd) as (_ & H & _).
  apply H. exists 2, 1%nat. split; [reflexivity|lia].
Defined.

(** X20.  A composed year is rendered only when the languages left no
    gap.  If [handle_year] returns for it, every day from 1 to the end
    of the range, day 25 with [create_all_days] and the last solved day
    without, was run by one of the languages; a day of the range that
    no language ran makes [handle_year] raise. *)
Theorem X20_rendered_without_gaps get_leaderboard self tracker languages years
    sd calls year yd :
  compose_solve_data get_leaderboard self (Some tracker) languages years
  = Ok (sd, calls) ->
  year_to_data sd !! year = Some yd ->
  let last_day := if create_all_days self then 25 else max_solved_day yd in
  (forall output,
     handle_year self year yd = Ok output ->
     forall day,
       1 <= day <= last_day ->
       exists language, language ∈ languages /\ (year, day) ∈ ran language)
  /\ (forall day,
        1 <= day <= last_day ->
        (forall language, language ∈ languages -> (year, day) ∉ ran language) ->
        exists e, handle_year self year yd = Raise e).
Proof.
  intros Hrun Hyd last_day.
  assert (forall day,
    is_Some (day_to_stars yd !! day) ->
    exists language, language ∈ languages /\ (year, day) ∈ ran language) as Hran.
  { intros day Hday.
    by destruct (composed_day_ran _ _ _ _ _ _ _ _ _ day Hrun Hyd Hday). }
  rewrite handle_year_range. change (max_day_of self yd) with last_day.
  destruct (decide (Forall _ (seqZ 1 last_day))) as [Hall|Hnot]; split.
  - intros output _ day Hday. apply Hran. rewrite Forall_forall in Hall.
    apply Hall, elem_of_seqZ. lia.
  - intros day Hday Hnone. rewrite Forall_forall in Hall.
    destruct (Hran day) as (language & Hl & Hd).
    { apply Hall, elem_of_seqZ. lia. }
    by destruct (Hnone language Hl).
  - done.
  - intros day _ _. by exists KeyError.
Qed.

(** ** Languages of a year and of a tile *)

Section TitleFacts.

Variable title : string -> string.
Variable has_color : string -> bool.

#[local] Abbreviation titles paths :=
  (list_to_set ((fun path : Language => title (lang path)) <$> paths) : gset string).

Lemma elem_of_titles name paths :
  name ∈ titles paths <-> exists l, l ∈ paths /\ title (lang l) = name.
Proof.
  rewrite elem_of_list_to_set, list_elem_of_fmap. split.
  - intros (l & -> & Hl). eauto.
  - intros (l & Hl & <-). eauto.
Qed.

Lemma used_daily_fold (seen : gset string) values :
  exists common,
    foldl (used_daily_step title) (Some seen) values = Some common
    /\ forall name,
         name ∈ common
         <-> name ∈ seen /\ forall paths, paths ∈ values -> name ∈ titles paths.
Proof.
  revert seen. induction values as [|paths values IH]; intros seen; cbn [foldl].
  - exists seen. split; [done|]. intros name. split; [|by intros [? _]].
    intros H. split; [done|]. intros paths Hp. by apply elem_of_nil in Hp.
  - unfold used_daily_step at 2. cbn [from_option id].
    destruct (IH (seen ∩ titles paths)) as (common & -> & Hcommon).
    exists common. split; [done|]. intros name. rewrite Hcommon, elem_of_intersection.
    split.
    + intros [[Hs Hp] Hall]. split; [done|].
      intros paths' [->|H]%elem_of_cons; auto.
    + intros [Hs Hall]. split; [split; [done|]|].
      * apply Hall. left.
      * intros paths' H. apply Hall. by right.
Qed.

(** X21.  A language name is reported as used daily exactly when some
    day has a contributing-language list and every day that has one
    holds a language of this name; a single day with an empty list
    empties the result. *)
Theorem X21_used_daily year_data name :
  name ∈ _get_programming_languages_used_daily title year_data
  <-> day_to_paths year_data <> ∅
      /\ forall day paths,
           day_to_paths year_data !! day = Some paths ->
           exists l, l ∈ paths /\ title (lang l) = name.
Proof.
  unfold _get_programming_languages_used_daily.
  assert (forall paths,
    paths ∈ (map_to_list (day_to_paths year_data)).*2
    <-> exists day, day_to_paths year_data !! day = Some paths) as Hvalues.
  { intros paths. rewrite list_elem_of_fmap. split.
    - intros ([day p] & -> & H). exists day. by apply elem_of_map_to_list.
    - intros [day H]. exists (day, paths). split; [done|].
      by apply elem_of_map_to_list. }
  destruct ((map_to_list (day_to_paths year_data)).*2) as [|first rest] eqn:E.
  - apply fmap_nil_inv, map_to_list_empty_iff in E. rewrite E. cbn.
    split; [by intros H%elem_of_empty|by intros [H _]].
  - cbn [foldl]. unfold used_daily_step at 2. cbn [from_option].
    destruct (used_daily_fold (titles first ∩ titles first) rest)
      as (common & -> & Hcommon).
    rewrite Hcommon, elem_of_intersection. split.
    + intros [[Hf _] Hrest]. split.
      { intros Hempty. rewrite Hempty, map_to_list_empty in E. done. }
      intros day paths Hp. apply elem_of_titles.
      assert (paths ∈ first :: rest) as [->|Hin]%elem_of_cons
        by (apply Hvalues; eauto); auto.
    + intros [_ Hall].
      assert (forall paths, paths ∈ first :: rest -> name ∈ titles paths) as Hin.
      { intros paths [day Hd]%Hvalues. apply elem_of_titles. eauto. }
      split; [split|]; try (apply Hin; left).
      intros paths Hp. apply Hin. by right.
Qed.

Lemma tile_languages_fold solutions chosen :
  NoDup chosen ->
  let result :=
    foldl (fun languages solution =>
             let name := title (lang solution) in
             if has_color name && bool_decide (name ∉ languages)
             then languages ++ [name]
             else languages)
          chosen solutions in
  NoDup result
  /\ (forall name,
        name ∈ result
        <-> name ∈ chosen
            \/ (has_color name = true
                /\ exists s, s ∈ solutions /\ title (lang s) = name))
  /\ result `sublist_of` chosen ++ ((fun s => title (lang s)) <$> solutions).
Proof.
  revert chosen. induction solutions as [|s solutions IH]; intros chosen Hnd;
    cbn [foldl].
  - split; [done|]. split; [|by rewrite app_nil_r].
    intros name. split; [by left|]. intros [?|(_ & s & Hs & _)]; [done|].
    by apply elem_of_nil in Hs.
  - cbv zeta. set (name0 := title (lang s)).
    destruct (has_color name0 && bool_decide (name0 ∉ chosen)) eqn:Hadd.
    + apply andb_true_iff in Hadd as [Hcol Hnew].
      apply bool_decide_eq_true in Hnew.
      destruct (IH (chosen ++ [name0])) as (Hnd' & Hin & Hsub).
      { apply NoDup_app. split; [done|]. split; [|apply NoDup_singleton].
        intros x Hx ->%list_elem_of_singleton. done. }
      split; [done|]. split.
      * intros name. rewrite Hin, elem_of_app, list_elem_of_singleton. split.
        -- intros [[? | ->] | (Hc & s' & Hs' & Ht)]; [by left| |].
           ++ right. split; [done|]. exists s. split; [left|done].
           ++ right. split; [done|]. exists s'. split; [by right|done].
        -- intros [? | (Hc & s' & [-> | Hs']%elem_of_cons & Ht)];
             [by left; left| |].
           ++ left. right. by rewrite <-Ht.
           ++ right. eauto.
      * by rewrite <-app_assoc in Hsub.
    + destruct (IH chosen Hnd) as (Hnd' & Hin & Hsub).
      split; [done|]. split.
      * intros name. rewrite Hin. split.
        -- intros [?|(Hc & s' & Hs' & Ht)]; [by left|].
           right. split; [done|]. exists s'. split; [by right|done].
        -- intros [? | (Hc & s' & [-> | Hs']%elem_of_cons & Ht)]; [by left| |].
           ++ left. fold name0 in Ht. subst name.
              rewrite Hc in Hadd. cbn in Hadd.
              apply bool_decide_eq_false in Hadd.
              by apply dec_stable in Hadd.
           ++ right. eauto.
      * etrans; [exact Hsub|]. apply sublist_app; [done|].
        cbn [fmap list_fmap]. by apply sublist_cons.
Qed.

#[local] Abbreviation choose :=
  (fun (languages : list string) (solution : Language) =>
     let name := title (lang solution) in
     if has_color name && bool_decide (name ∉ languages)
     then languages ++ [name]
     else languages).

Lemma filter_not_in_app (chosen more l : list string) :
  filter (fun name => name ∉ chosen ++ more) l
  = filter (fun name => name ∉ chosen) (filter (fun name => name ∉ more) l).
Proof.
  induction l as [|x l IH]; [done|]. rewrite !filter_cons.
  destruct (decide (x ∉ more)) as [Hm|Hm].
  - rewrite filter_cons. destruct (decide (x ∉ chosen)) as [Hc|Hc].
    + rewrite decide_True by (rewrite elem_of_app; tauto). by rewrite IH.
    + rewrite decide_False by (rewrite elem_of_app; tauto). done.
  - rewrite decide_False by (rewrite elem_of_app; tauto). done.
Qed.

Lemma filter_not_in_absorb (chosen : list string) name (l : list string) :
  name ∈ chosen ->
  filter (fun x => x ∉ chosen) (filter (fun x => x ∉ [name]) l)
  = filter (fun x => x ∉ chosen) l.
Proof.
  intros Hin. induction l as [|x l IH]; [done|]. rewrite !filter_cons.
  destruct (decide (x ∉ [name])) as [Hx|Hx].
  - rewrite filter_cons. by rewrite IH.
  - apply dec_stable, list_elem_of_singleton in Hx as ->.
    rewrite decide_False by (intros H; by apply H). done.
Qed.

(** What was chosen before stays in front; the rest is what an empty
    start would choose, less the names already there. *)
Lemma tile_languages_step chosen s solutions :
  foldl choose chosen (s :: solutions)
  = foldl choose
      (if has_color (title (lang s)) && bool_decide (title (lang s) ∉ chosen)
       then chosen ++ [title (lang s)] else chosen)
      solutions.
Proof. done. Qed.

Lemma tile_languages_from solutions chosen :
  foldl choose chosen solutions
  = chosen ++ filter (fun name => name ∉ chosen) (foldl choose [] solutions).
Proof.
  revert chosen. induction solutions as [|s solutions IH]; intros chosen.
  - cbn [foldl]. by rewrite app_nil_r.
  - rewrite !tile_languages_step. set (name := title (lang s)).
    rewrite (bool_decide_eq_true_2 (name ∉ [])) by apply not_elem_of_nil.
    destruct (has_color name) eqn:Hcol;
      rewrite ?andb_true_l, ?andb_false_l; cbv iota; rewrite ?app_nil_l.
    + rewrite (IH [name]).
      destruct (bool_decide (name ∉ chosen)) eqn:Hnew.
      * apply bool_decide_eq_true in Hnew. rewrite (IH (chosen ++ [name])).
        rewrite <-app_assoc. f_equal.
        change ([name] ++ ?l) with (name :: l). rewrite filter_cons.
        rewrite decide_True by done. f_equal. apply filter_not_in_app.
      * apply bool_decide_eq_false in Hnew. apply dec_stable in Hnew.
        rewrite (IH chosen). f_equal.
        change ([name] ++ ?l) with (name :: l). rewrite filter_cons.
        rewrite decide_False by (intros H; by apply H).
        by rewrite filter_not_in_absorb.
    + apply IH.
Qed.

Lemma tile_languages_cons s solutions :
  tile_languages title has_color (s :: solutions)
  = if has_color (title (lang s))
    then title (lang s)
         :: filter (fun name => name <> title (lang s))
              (tile_languages title has_color solutions)
    else tile_languages title has_color solutions.
Proof.
  unfold tile_languages. rewrite tile_languages_step.
  rewrite (bool_decide_eq_true_2 (_ ∉ [])) by apply not_elem_of_nil.
  destruct (has_color (title (lang s)));
    rewrite ?andb_true_l, ?andb_false_l; cbv iota; rewrite ?app_nil_l; [|done].
  rewrite tile_languages_from.
  change ([?x] ++ ?l) with (x :: l). f_equal.
  apply list_filter_iff. intros name. rewrite list_elem_of_singleton. done.
Qed.

(** X22.  The language names drawn on a tile are the names of the
    day's solutions that have a colour, each once, in the order of
    their first solution: the name of the first solution, when it has a
    colour, comes first and is left out of what the remaining solutions
    give. *)
Theorem X22_tile_languages solutions :
  NoDup (tile_languages title has_color solutions)
  /\ (forall name,
        name ∈ tile_languages title has_color solutions
        <-> has_color name = true
            /\ exists s, s ∈ solutions /\ title (lang s) = name)
  /\ tile_languages title has_color solutions
       `sublist_of` ((fun s => title (lang s)) <$> solutions)
  /\ tile_languages title has_color [] = []
  /\ forall s rest,
       tile_languages title has_color (s :: rest)
       = if has_color (title (lang s))
         then title (lang s)
              :: filter (fun name => name <> title (lang s))
                   (tile_languages title has_color rest)
         else tile_languages title has_color rest.
Proof.
  destruct (tile_languages_fold solutions [] (NoDup_nil_2)) as (Hnd & Hin & Hsub).
  split; [done|]. split; [|split; [done|split; [done|apply tile_languages_cons]]].
  intros name. rewrite (Hin name). split; [|by right].
  intros [H|?]; [by apply elem_of_nil in H|done].
Qed.

End TitleFacts.

Lemma X21_used_daily_witness :
  "Rust" ∈ _get_programming_languages_used_daily (fun _ => "Rust")
             {| day_to_scores := ∅; day_to_paths := {[ 1 := [Samples.rust] ]};
                day_to_stars := ∅ |}.
Proof.
  apply (proj2 (X21_used_daily (fun _ => "Rust")
                  {| day_to_scores := ∅; day_to_paths := {[ 1 := [Samples.rust] ]};
                     day_to_stars := ∅ |} "Rust")).
  split.
  - intros H. apply (f_equal (fun m => m !! 1)) in H. by vm_compute in H.
  - intros day paths Hp. cbn [day_to_paths] in Hp.
    apply lookup_singleton_Some in Hp as [_ <-].
    exists Samples.rust. split; [left|reflexivity].
Defined.


(** ** The run *)

#[local] Instance not_older_total : Total not_older.
Proof. intros a b. unfold not_older. lia. Qed.

#[local] Instance not_older_trans : Transitive not_older.
Proof. intros a b c. unfold not_older. lia. Qed.

Lemma years_newest_first_perm sd :
  years_newest_first sd ≡ₚ map_to_list (year_to_data sd).
Proof. apply merge_sort_Permutation. Qed.

Lemma elem_of_years_newest_first sd year yd :
  (year, yd) ∈ years_newest_first sd <-> year_to_data sd !! year = Some yd.
Proof. by rewrite years_newest_first_perm, elem_of_map_to_list. Qed.

Lemma strictly_descending (entries : list (Z * YearData)) :
  StronglySorted not_older entries -> NoDup entries.*1 ->
  StronglySorted (fun a b => b < a) entries.*1.
Proof.
  induction 1 as [|e entries Hs IH Hall]; intros Hnd; cbn [fmap list_fmap].
  - constructor.
  - cbn [fmap list_fmap] in Hnd. apply NoDup_cons in Hnd as [Hfresh Hnd].
    constructor; [by apply IH|]. apply Forall_fmap, Forall_forall.
    intros e' He'. rewrite Forall_forall in Hall. specialize (Hall e' He').
    unfold not_older in Hall. cbn.
    assert (e'.1 <> e.1); [|lia].
    intros Heq. apply Hfresh. rewrite <-Heq. apply list_elem_of_fmap. eauto.
Qed.

Lemma render_loop self entries done out :
  for_each (fun done (entry : Z * YearData) =>
              output ← handle_year self entry.1 entry.2;
              Ok (done ++ [(entry.1, output)]))
           done entries = Ok out ->
  exists outputs,
    out = done ++ outputs
    /\ Forall2 (fun (entry : Z * YearData) (o : Z * YearOutput) =>
                  o.1 = entry.1 /\ handle_year self entry.1 entry.2 = Ok o.2)
               entries outputs.
Proof.
  revert done. induction entries as [|e entries IH]; intros done; cbn [for_each].
  - intros [= <-]. exists []. by rewrite app_nil_r.
  - unfold mbind at 1 2, result_bind at 1 2.
    destruct (handle_year self e.1 e.2) as [o|] eqn:Ho; [|done].
    intros (outputs & -> & Hall)%IH. exists ((e.1, o) :: outputs).
    rewrite <-app_assoc. split; [done|]. by constructor.
Qed.

(** X23.  When the loop over the years succeeds, the years come out
    newest first, each year of the composed state once, together with
    what [handle_year] produced for it. *)
Theorem X23_years_newest_first self sd out :
  render_years self sd = Ok out ->
  StronglySorted (fun a b => b < a) out.*1
  /\ (forall year, year ∈ out.*1 <-> is_Some (year_to_data sd !! year))
  /\ forall year output,
       (year, output) ∈ out ->
       exists yd,
         year_to_data sd !! year = Some yd
         /\ handle_year self year yd = Ok output.
Proof.
  unfold render_years.
  intros (outputs & -> & Hall)%render_loop. cbn [app].
  assert (outputs.*1 = (years_newest_first sd).*1) as Hyears.
  { clear -Hall. induction Hall as [|e o es os He ? IH]; [done|].
    cbn beta in He. destruct He as [He _].
    cbn [fmap list_fmap]. by rewrite He, IH. }
  split; [|split].
  - rewrite Hyears. apply strictly_descending.
    + apply StronglySorted_merge_sort; apply _.
    + rewrite years_newest_first_perm. apply NoDup_fst_map_to_list.
  - intros year. rewrite Hyears, list_elem_of_fmap. split.
    + intros ([y yd] & -> & H%elem_of_years_newest_first). eauto.
    + intros [yd H]. exists (year, yd). split; [done|].
      by apply elem_of_years_newest_first.
  - intros year output Hin.
    apply list_elem_of_lookup in Hin as [i Hi].
    destruct (Forall2_lookup_r _ _ _ _ _ Hall Hi) as ([y yd] & He & Hy & Ho).
    cbn in Hy, Ho. subst y. exists yd. split; [|done].
    apply elem_of_years_newest_first, list_elem_of_lookup. eauto.
Qed.

(** X24.  One year for which [handle_year] raises makes the loop over
    the years raise, whichever year it is: the years after it are not
    handled and no result is returned. *)
Theorem X24_one_year_aborts self sd year yd :
  year_to_data sd !! year = Some yd ->
  succeeds (handle_year self year yd) = false ->
  exists e, render_years self sd = Raise e.
Proof.
  intros Hyd Hfail. apply succeeds_false. unfold render_years.
  apply (for_each_raises _ _ _ (year, yd)).
  - by apply elem_of_years_newest_first.
  - intros done. cbn [fst snd]. by destruct (handle_year self year yd).
Qed.

(** X25.  Composition needs no leaderboard exactly when the tiles show
    checkmarks and files alone decide the stars, which is what ["auto"]
    means without a session cookie; with a cookie ["auto"] always needs
    one. *)
Theorem X25_when_leaderboard_needed aoc_cookie shown solved_when all_days :
  is_leaderboard_needed (TileMaker_init aoc_cookie shown solved_when all_days) = false
  <-> (shown = Some Checkmark \/ (shown = None /\ aoc_cookie = false))
      /\ (solved_when = Some FileExists \/ (solved_when = None /\ aoc_cookie = false)).
Proof.
  unfold is_leaderboard_needed, TileMaker_init; cbn.
  destruct aoc_cookie, shown as [[]|], solved_when as [[]|]; cbn;
    split; try done; try (intros [[?|[? ?]] [?|[? ?]]]; done); auto.
Qed.

(** ** Further sample inputs, evaluated *)

Example zig_2025 :
  exists scores,
    parse_leaderboard (fun _ => Samples.times_only_page) 2025
      (Some MoreSamples.tracker_2025) false = Ok scores
    /\ compose_solve_data (fun _ => Samples.times_only_page) MoreSamples.by_both
         (Some MoreSamples.tracker_2025) [MoreSamples.zig] [2025]
       = Ok ({| year_to_data :=
                  {[ 2025 := {| day_to_scores := scores;
                                day_to_paths := {[ 4 := [MoreSamples.zig] ]};
                                day_to_stars := {[ 4 := 0%nat ]} |} ]} |},
             [2025]).
Proof. eexists. split; vm_compute; reflexivity. Qed.

Example ada_alone :
  compose_solve_data Samples.pages Samples.by_files (Some Samples.tracker)
    [MoreSamples.ada] [2020]
  = Ok ({| year_to_data :=
             {[ 2020 := {| day_to_scores := ∅;
                           day_to_paths := {[ 1 := [MoreSamples.ada] ]};
                           day_to_stars := {[ 1 := 1%nat ]} |} ]} |}, []).
Proof. vm_compute. reflexivity. Qed.

Example python_with_runtime :
  compose_solve_data Samples.pages MoreSamples.by_runtime (Some Samples.tracker)
    [Samples.python] [2020]
  = Ok ({| year_to_data :=
             {[ 2020 :=
                  {| day_to_scores :=
                       {[ 5 := {| time1 := Some "1.500"; rank1 := Some "123";
                                  score1 := Some "456"; time2 := None;
                                  rank2 := Some "45"; score2 := Some "678" |} ]};
                     day_to_paths := {[ 2 := [Samples.python] ]};
                     day_to_stars := {[ 2 := 2%nat ]} |} ]} |}, [2020]).
Proof. vm_compute. reflexivity. Qed.

Example two_years_rendered :
  render_years Samples.by_files
    {| year_to_data :=
         {[ 2020 := {| day_to_scores := ∅;
                       day_to_paths := {[ 1 := [MoreSamples.ada] ]};
                       day_to_stars := {[ 1 := 1%nat ]} |};
            2021 := {| day_to_scores := ∅; day_to_paths := ∅;
                       day_to_stars := ∅ |} ]} |}
  = Ok [(2021, {| heading_stars := 0; tiles := [] |});
        (2020, {| heading_stars := 1;
                  tiles := [{| tile_day := 1; tile_solutions := [MoreSamples.ada];
                               tile_scores := None; tile_stars := 1 |}] |})].
Proof. vm_compute. reflexivity. Qed.

(** ** Witnesses *)

Lemma X7_ranks_present_or_absent_witness :
  exists record,
    rank1 record = Some "123" /\ rank2 record = None
    /\ leaderboard_stars (Some record) = 1%nat.
Proof.
  eexists. split; [|split]; [| |
    destruct (X7_ranks_present_or_absent _ _ _ _ _ 5 _ single_part_parsed eq_refl)
      as (_ & _ & H); rewrite H]; reflexivity.
Defined.

Lemma X8_newer_format_no_ranks_witness :
  exists record,
    time1 record = Some "00:11:11" /\ leaderboard_stars (Some record) = 0%nat.
Proof.
  eexists. split; [|
    destruct (X8_newer_format_no_ranks _ 2025 _ _ _ 4 _ ltac:(lia)
                times_only_parsed eq_refl) as (_ & _ & _ & _ & H); exact H].
  reflexivity.
Defined.

Lemma X9_newer_years_without_remote_stars_witness :
  exists sd calls yd n,
    compose_solve_data (fun _ => Samples.times_only_page) MoreSamples.by_both
      (Some MoreSamples.tracker_2025) [MoreSamples.zig] [2025] = Ok (sd, calls)
    /\ year_to_data sd !! 2025 = Some yd
    /\ day_to_stars yd !! 4 = Some n /\ n = 0%nat.
Proof.
  destruct zig_2025 as (scores & _ & Hrun).
  eexists _, _, _, _. split; [exact Hrun|]. split; [reflexivity|].
  split; [reflexivity|].
  apply (X9_newer_years_without_remote_stars _ _ _ _ _ _ _ 2025 _ 4 _
           Hrun eq_refl); [lia|by right|reflexivity].
Defined.

Lemma X10_years_composed_witness :
  exists sd calls,
    compose_solve_data Samples.pages Samples.by_files (Some Samples.tracker)
      [Samples.python; Samples.rust] [2020] = Ok (sd, calls)
    /\ is_Some (year_to_data sd !! 2020) /\ year_to_data sd !! 2019 = None.
Proof.
  eexists _, _. split; [exact python_then_rust|].
  destruct (X10_years_composed _ _ _ _ _ _ _ 2020 python_then_rust) as [H _].
  split; [|reflexivity]. apply H. split; [done|]. split; [left|reflexivity].
Defined.

Lemma X11_contributing_languages_witness :
  exists sd calls yd,
    compose_solve_data Samples.pages Samples.by_files (Some Samples.tracker)
      [Samples.python; Samples.rust] [2020] = Ok (sd, calls)
    /\ year_to_data sd !! 2020 = Some yd
    /\ day_to_paths yd !! 2 = Some [Samples.python; Samples.rust].
Proof.
  eexists _, _, _. split; [exact python_then_rust|]. split; [reflexivity|].
  destruct (X11_contributing_languages _ _ _ _ _ _ _ 2020 _ 2
              python_then_rust eq_refl) as [_ H].
  rewrite H; [by vm_compute|]. apply NoDup_singleton.
Defined.

Lemma X12_days_of_a_year_witness :
  exists sd calls yd,
    compose_solve_data Samples.pages Samples.by_files (Some Samples.tracker)
      [Samples.python; Samples.rust] [2020] = Ok (sd, calls)
    /\ year_to_data sd !! 2020 = Some yd
    /\ is_Some (day_to_paths yd !! 2)
    /\ exists language,
         language ∈ [Samples.python; Samples.rust] /\ (2020, 2) ∈ ran language.
Proof.
  eexists _, _, _. split; [exact python_then_rust|]. split; [reflexivity|].
  destruct (X12_days_of_a_year _ _ _ _ _ _ _ 2020 _ 2 python_then_rust eq_refl)
    as (H1 & H2 & _).
  split; [apply H1; by eexists|]. apply H2. by eexists.
Defined.

Lemma X13_no_leaderboard_needed_witness :
  exists sd calls yd,
    compose_solve_data Samples.pages Samples.by_files (Some Samples.tracker)
      [Samples.python; Samples.rust] [2020] = Ok (sd, calls)
    /\ calls = []
    /\ year_to_data sd !! 2020 = Some yd
    /\ day_to_scores yd = ∅
    /\ day_to_stars yd !! 2 = Some 1%nat.
Proof.
  eexists _, _, _. split; [exact python_then_rust|].
  destruct (X13_no_leaderboard_needed Samples.pages Samples.by_files Samples.tracker
              _ _ _ _ eq_refl python_then_rust) as [Hcalls Hyear].
  split; [exact Hcalls|]. split; [reflexivity|].
  destruct (Hyear 2020 _ eq_refl) as [Hscores Hstars].
  split; [exact Hscores|]. rewrite (Hstars 2). vm_compute. reflexivity.
Defined.

Lemma X14_scores_stored_witness :
  exists sd calls yd record,
    compose_solve_data Samples.pages MoreSamples.by_runtime (Some Samples.tracker)
      [Samples.python] [2020] = Ok (sd, calls)
    /\ year_to_data sd !! 2020 = Some yd
    /\ parse_leaderboard Samples.pages 2020 (Some Samples.tracker) true
       = Ok (day_to_scores yd)
    /\ day_to_scores yd !! 5 = Some record
    /\ time1 record = Some "1.500".
Proof.
  eexists _, _, _, _. split; [exact python_with_runtime|].
  split; [reflexivity|]. split; [|split; reflexivity].
  exact (X14_scores_stored Samples.pages MoreSamples.by_runtime Samples.tracker
           _ _ _ _ 2020 _ eq_refl python_with_runtime eq_refl).
Defined.

Lemma X16_star_bounds_witness :
  exists sd calls yd,
    compose_solve_data Samples.pages Samples.by_files (Some Samples.tracker)
      [Samples.python; Samples.rust] [2020] = Ok (sd, calls)
    /\ year_to_data sd !! 2020 = Some yd
    /\ (total_stars yd <= 50)%nat.
Proof.
  eexists _, _, _. split; [exact python_then_rust|]. split; [reflexivity|].
  apply (X16_star_bounds _ _ _ _ _ _ _ 2020 _ python_then_rust eq_refl).
  right; right. intros language day. cbn.
  destruct (String.eqb _ _); cbn; lia.
Defined.

Lemma X20_rendered_without_gaps_witness :
  (exists sd calls yd output,
     compose_solve_data Samples.pages Samples.by_files (Some Samples.tracker)
       [MoreSamples.ada] [2020] = Ok (sd, calls)
     /\ year_to_data sd !! 2020 = Some yd
     /\ handle_year Samples.by_files 2020 yd = Ok output
     /\ exists language,
          language ∈ [MoreSamples.ada] /\ (2020, 1) ∈ ran language)
  /\ exists sd calls yd e,
       compose_solve_data Samples.pages Samples.by_files (Some Samples.tracker)
         [Samples.python] [2020] = Ok (sd, calls)
       /\ year_to_data sd !! 2020 = Some yd
       /\ handle_year Samples.by_files 2020 yd = Raise e.
Proof.
  split.
  - eexists _, _, _, _. split; [exact ada_alone|]. split; [reflexivity|].
    split; [vm_compute; reflexivity|].
    destruct (X20_rendered_without_gaps _ _ _ _ _ _ _ 2020 _ ada_alone eq_refl)
      as [H _].
    eapply (H _ ltac:(vm_compute; reflexivity) 1).
    vm_compute. split; discriminate.
  - destruct (X20_rendered_without_gaps _ _ _ _ _ _ _ 2020 _ python_alone eq_refl)
      as [_ H].
    destruct (H 1) as [e He].
    + vm_compute. split; discriminate.
    + intros language ->%list_elem_of_singleton. by vm_compute.
    + eexists _, _, _, e. split; [exact python_alone|]. split; [reflexivity|].
      exact He.
Defined.

Lemma X22_tile_languages_witness :
  tile_languages (fun name => name) (fun _ => true)
    [Samples.python; Samples.rust; Samples.python] = ["python"; "rust"]
  /\ "rust" ∈ tile_languages (fun name => name)
                (fun name => bool_decide (name = "rust"))
                [Samples.python; Samples.rust; Samples.rust].
Proof.
  split.
  - destruct (X22_tile_languages (fun name => name) (fun _ => true) [])
      as (_ & _ & _ & Hnil & Hcons).
    rewrite !Hcons, Hnil. vm_compute. reflexivity.
  - destruct (X22_tile_languages (fun name => name)
                (fun name => bool_decide (name = "rust"))
                [Samples.python; Samples.rust; Samples.rust]) as (_ & H2 & _).
    apply H2. split; [reflexivity|].
    exists Samples.rust. split; [right; left|reflexivity].
Defined.

Lemma X23_years_newest_first_witness :
  exists out : list (Z * YearOutput),
    StronglySorted (fun a b => b < a) out.*1 /\ out.*1 = [2021; 2020].
Proof.
  eexists. split.
  - exact (proj1 (X23_years_newest_first _ _ _ two_years_rendered)).
  - reflexivity.
Defined.

Lemma X24_one_year_aborts_witness :
  exists sd calls e,
    compose_solve_data Samples.pages Samples.by_files (Some Samples.tracker)
      [Samples.python] [2020] = Ok (sd, calls)
    /\ render_years Samples.by_files sd = Raise e.
Proof.
  pose (yd := {| day_to_scores := ∅;
                 day_to_paths := {[ 2 := [Samples.python] ]};
                 day_to_stars := {[ 2 := 2%nat ]} |}).
  destruct (X24_one_year_aborts Samples.by_files
              {| year_to_data := {[ 2020 := yd ]} |} 2020 yd) as [e He].
  - reflexivity.
  - vm_compute. reflexivity.
  - eexists _, _, e. split; [exact python_alone|]. exact He.
Defined.

Lemma X25_when_leaderboard_needed_witness :
  is_leaderboard_needed (TileMaker_init false None None false) = false.
Proof.
  apply (proj2 (X25_when_leaderboard_needed false None None false)).
  split; right; done.
Defined.

